(** * DepthMaskMaterial: the depth-test configuration of the depth mask pass

    A shallow embedding of [src/materials/DepthMaskMaterial.js] and of the
    parts of the JavaScript language and of the GLSL preprocessor its
    behaviour rests on.

    - [JsNumber]: JavaScript Numbers as IEEE 754 binary64 values
      (the Standard Library's [spec_float] at precision 53), with
      [Number.prototype.toFixed], [Number::toString] and [StringToNumber].
    - [Js]: the primitive values of the language, strict equality,
      [ToBoolean], [ToNumber] and property lookup on an object literal.
    - [Glsl]: the comparison expressions the material writes into its
      [depthTest(d0, d1)] macro, read back the way the shader compiler
      reads them: tokens, macro expansion, parsing, evaluation.
    - [Material]: the class itself, as functions over an explicit object
      state in a state-and-exception monad. *)

From Stdlib Require Import ZArith QArith Qabs Bool List Ascii String Lia.
From Stdlib Require Import Floats.SpecFloat.
From stdpp Require Import base option gmap strings.

Local Open Scope Z_scope.

(** ** Decimal digits

    Printing a non-negative integer in base ten and reading a run of digits
    back.  Both [toFixed] and [StringToNumber] are built on these. *)

Module Decimal.

Definition digit_char (d : Z) : ascii :=
  ascii_of_nat (48 + Z.to_nat d).

Definition digit_val (c : ascii) : option Z :=
  let n := Z.of_nat (nat_of_ascii c) in
  if (48 <=? n) && (n <=? 57) then Some (n - 48) else None.

Definition is_digit (c : ascii) : bool :=
  match digit_val c with Some _ => true | None => false end.

(** Most significant digit first; [fuel] bounds the number of digits. *)
Fixpoint digits_aux (fuel : nat) (n : Z) (acc : string) : string :=
  match fuel with
  | O => acc
  | S fuel' =>
      let acc' := String (digit_char (n mod 10)) acc in
      if n <? 10 then acc' else digits_aux fuel' (n / 10) acc'
  end.

(** The decimal digits of [n >= 0]; ["0"] for zero. *)
Definition digits (n : Z) : string :=
  digits_aux (S (Z.to_nat (Z.log2 n))) n EmptyString.

Fixpoint zeros (k : nat) : string :=
  match k with
  | O => EmptyString
  | S k' => String "0"%char (zeros k')
  end.

(** The value of a string of digits, continuing from [acc]. *)
Fixpoint value_from (acc : Z) (s : string) : Z :=
  match s with
  | EmptyString => acc
  | String c s' =>
      match digit_val c with
      | Some d => value_from (10 * acc + d) s'
      | None => acc
      end
  end.

Fixpoint all_digits (s : string) : bool :=
  match s with
  | EmptyString => true
  | String c s' => is_digit c && all_digits s'
  end.

(** Reads the longest prefix of digits: the value accumulated on top of
    [acc], how many digits were read, and what follows them. *)
Fixpoint scan (s : string) (acc : Z) (cnt : nat) : Z * nat * string :=
  match s with
  | EmptyString => (acc, cnt, EmptyString)
  | String c s' =>
      match digit_val c with
      | Some d => scan s' (10 * acc + d) (S cnt)
      | None => (acc, cnt, s)
      end
  end.

Fixpoint take (k : nat) (s : string) : string :=
  match k, s with
  | S k', String c s' => String c (take k' s')
  | _, _ => EmptyString
  end.

Fixpoint drop (k : nat) (s : string) : string :=
  match k, s with
  | S k', String _ s' => drop k' s'
  | _, _ => s
  end.

End Decimal.

(** ** JavaScript Numbers

    A Number is an IEEE 754 binary64 value: [spec_float] at precision 53 and
    maximal exponent 1024.  [S754_finite s m e] denotes [(-1)^s * m * 2^e].
    The conversions to and from text follow ECMA-262: [toFixed] is
    Number.prototype.toFixed, [to_string] is Number::toString in radix 10
    and [StringToNumber] is the abstract operation of that name.  Strings
    are byte strings, so the white space skipped by [StringToNumber] is the
    ASCII part of the language's white space. *)

Module JsNumber.
Import Decimal.

Definition prec : Z := 53.
Definition emax : Z := 1024.

Definition number : Type := spec_float.

Definition NaN : number := S754_nan.

(** The Number nearest to [p / q] (round to nearest, ties to even), with
    sign bit [neg]; [p >= 0] and [q > 0]. *)
Definition nearest (neg : bool) (p q : Z) : number :=
  match p, q with
  | Zpos p', Zpos q' =>
      SFdiv prec emax (S754_finite neg p' 0) (S754_finite false q' 0)
  | _, _ => S754_zero neg
  end.

(** The Number nearest to [m * 10^e]. *)
Definition of_decimal (neg : bool) (m e : Z) : number :=
  if 0 <=? e then nearest neg (m * 10 ^ e) 1 else nearest neg m (10 ^ (- e)).

Definition of_Z (z : Z) : number := nearest (z <? 0) (Z.abs z) 1.

(** The absolute value of a finite Number as an exact fraction. *)
Definition magnitude (x : number) : Z * Z :=
  match x with
  | S754_finite _ m e =>
      if 0 <=? e then (Zpos m * 2 ^ e, 1) else (Zpos m, 2 ^ (- e))
  | _ => (0, 1)
  end.

(** [x < 0] on the mathematical value: false for both zeros. *)
Definition negative (x : number) : bool :=
  match x with
  | S754_finite s _ _ | S754_infinity s => s
  | _ => false
  end.

Definition finite (x : number) : bool :=
  match x with
  | S754_finite _ _ _ | S754_zero _ => true
  | _ => false
  end.

(** The mathematical value of a finite Number. *)
Definition to_Q (x : number) : Q :=
  let '(p, q) := magnitude x in
  Qmake (if negative x then - p else p) (Z.to_pos q).

(** The integer nearest to [p / q], the larger one on a tie. *)
Definition round_half_up (p q : Z) : Z := (2 * p + q) / (2 * q).

(** Steps 11.a to 11.c of toFixed: [n] written with [fd] digits after
    the point. *)
Definition fixed_text (n : Z) (fd : nat) : string :=
  let m := if n =? 0 then "0"%string else digits n in
  match fd with
  | O => m
  | _ =>
      let k := String.length m in
      let m' := if (k <=? fd)%nat then zeros (fd + 1 - k) +:+ m else m in
      let k' := if (k <=? fd)%nat then (fd + 1)%nat else k in
      take (k' - fd) m' +:+ "." +:+ drop (k' - fd) m'
  end.

(** *** Number::toString *)

(** The least [j >= j0] with [q <= p * 10^(j - j0)], counting up. *)
Fixpoint scale_up (fuel : nat) (p q j : Z) : Z :=
  if q <=? p then j
  else match fuel with
       | O => j
       | S fuel' => scale_up fuel' (10 * p) q (j + 1)
       end.

(** The [n] with [10^(n-1) <= p / q < 10^n], for [p, q > 0]. *)
Definition decimal_exponent (p q : Z) : Z :=
  if q <=? p then Z.of_nat (String.length (digits (p / q)))
  else 1 - scale_up (S (Z.to_nat (Z.log2 q))) (10 * p) q 1.

(** [p / q] divided by [10^(n-k)], as a fraction. *)
Definition scaled (p q n k : Z) : Z * Z :=
  if n <=? k then (p * 10 ^ (k - n), q) else (p, q * 10 ^ (n - k)).

(** Does the decimal [s * 10^(n-k)] read back as [x]? *)
Definition denotes (x : number) (s n k : Z) : bool :=
  SFeqb (of_decimal false s (n - k)) x.

(** The integers [s] and [n] of Number::toString, step 5: the least
    number of digits [k] for which some [s] of [k] digits has
    [s * 10^(n-k)] read back as [x]; of two such [s] the one nearer to
    [x], and the even one on a tie. *)
Fixpoint shortest (fuel : nat) (x : number) (p q n k : Z) : Z * Z :=
  let '(a, b) := scaled p q n k in
  let lo := a / b in
  let hi := lo + 1 in
  let pick_hi :=
    match (2 * a ?= (lo + hi) * b) with
    | Gt => true
    | Eq => Z.even hi
    | Lt => false
    end in
  let carry s := if s =? 10 ^ k then (10 ^ (k - 1), n + 1) else (s, n) in
  match denotes x lo n k, denotes x hi n k with
  | true, true => carry (if pick_hi then hi else lo)
  | true, false => (lo, n)
  | false, true => carry hi
  | false, false =>
      match fuel with
      | O => (lo, n)
      | S fuel' => shortest fuel' x p q n (k + 1)
      end
  end.

(** Steps 5 to 12 of Number::toString for a finite [x > 0]. *)
Definition to_string_pos (x : number) : string :=
  let '(p, q) := magnitude x in
  let '(s, n) := shortest 20 x p q (decimal_exponent p q) 1 in
  let ds := digits s in
  let k := Z.of_nat (String.length ds) in
  if (k <=? n) && (n <=? 21) then ds +:+ zeros (Z.to_nat (n - k))
  else if (0 <? n) && (n <=? 21) then
    take (Z.to_nat n) ds +:+ "." +:+ drop (Z.to_nat n) ds
  else if (-6 <? n) && (n <=? 0) then
    "0." +:+ zeros (Z.to_nat (- n)) +:+ ds
  else
    let e := n - 1 in
    let es := (if 0 <=? e then "+" else "-") +:+ digits (Z.abs e) in
    if k =? 1 then ds +:+ "e" +:+ es
    else take 1 ds +:+ "." +:+ drop 1 ds +:+ "e" +:+ es.

Definition to_string (x : number) : string :=
  match x with
  | S754_nan => "NaN"
  | S754_zero _ => "0"
  | S754_infinity s => if s then "-Infinity" else "Infinity"
  | S754_finite s m e =>
      (if s then "-" else "") +:+ to_string_pos (S754_finite false m e)
  end.

(** *** Number.prototype.toFixed *)

(** Step 11.a: the integer [n] for which [n / 10^fd - |x|] is as close
    to zero as possible, the larger one if there are two. *)
Definition fixed_point (x : number) (fd : nat) : Z :=
  let '(p, q) := magnitude x in round_half_up (p * 10 ^ Z.of_nat fd) q.

(** Is [x] finite with [|x| < 10^21]? *)
Definition in_fixed_range (x : number) : bool :=
  let '(p, q) := magnitude x in finite x && (p <? 10 ^ 21 * q).

Definition toFixed (x : number) (fd : nat) : string :=
  match x with
  | S754_finite s m e =>
      let '(p, q) := magnitude x in
      (if s then "-" else "") +:+
      (if 10 ^ 21 * q <=? p then to_string (S754_finite false m e)
       else fixed_text (fixed_point x fd) fd)
  | S754_zero _ => fixed_text 0 fd
  | _ => to_string x
  end.

(** *** StringToNumber *)

Definition is_ws (c : ascii) : bool :=
  let n := nat_of_ascii c in
  ((9 <=? n)%nat && (n <=? 13)%nat) || (n =? 32)%nat.

Fixpoint skip_ws (s : string) : string :=
  match s with
  | String c s' => if is_ws c then skip_ws s' else s
  | EmptyString => s
  end.

Fixpoint all_ws (s : string) : bool :=
  match s with
  | String c s' => is_ws c && all_ws s'
  | EmptyString => true
  end.

Fixpoint strip_prefix (p s : string) : option string :=
  match p, s with
  | EmptyString, _ => Some s
  | String a p', String b s' => if Ascii.eqb a b then strip_prefix p' s' else None
  | _, _ => None
  end.

Definition split_sign (s : string) : bool * string :=
  match s with
  | String c s' =>
      if Ascii.eqb c "+" then (false, s')
      else if Ascii.eqb c "-" then (true, s')
      else (false, s)
  | EmptyString => (false, s)
  end.

(** ExponentPart, optional: [m * 10^e] followed by [r]. *)
Definition parse_exponent (m e : Z) (r : string) : option (Z * Z * string) :=
  match r with
  | String c r1 =>
      if Ascii.eqb c "e" || Ascii.eqb c "E" then
        let '(neg, r2) := split_sign r1 in
        let '(x, cnt, r3) := scan r2 0 0 in
        match cnt with
        | O => None
        | _ => Some (m, e + (if neg then - x else x), r3)
        end
      else Some (m, e, r)
  | EmptyString => Some (m, e, r)
  end.

(** StrUnsignedDecimalLiteral without the Infinity case: the mantissa,
    the power of ten and what follows the literal. *)
Definition parse_decimal (s : string) : option (Z * Z * string) :=
  let '(ip, ni, r1) := scan s 0 0 in
  match r1 with
  | String c r2 =>
      if Ascii.eqb c "." then
        let '(m, nf, r3) := scan r2 ip 0 in
        match (ni + nf)%nat with
        | O => None
        | _ => parse_exponent m (- Z.of_nat nf) r3
        end
      else match ni with
           | O => None
           | _ => parse_exponent ip 0 r1
           end
  | EmptyString =>
      match ni with
      | O => None
      | _ => Some (ip, 0, r1)
      end
  end.

Definition radix_digit (base : Z) (c : ascii) : option Z :=
  let n := Z.of_nat (nat_of_ascii c) in
  let v := if (48 <=? n) && (n <=? 57) then n - 48
           else if (97 <=? n) && (n <=? 102) then n - 87
           else if (65 <=? n) && (n <=? 70) then n - 55
           else base in
  if v <? base then Some v else None.

Fixpoint scan_radix (base : Z) (s : string) (acc : Z) (cnt : nat)
  : Z * nat * string :=
  match s with
  | EmptyString => (acc, cnt, EmptyString)
  | String c s' =>
      match radix_digit base c with
      | Some d => scan_radix base s' (base * acc + d) (S cnt)
      | None => (acc, cnt, s)
      end
  end.

(** NonDecimalIntegerLiteral: [0x], [0o] and [0b] literals. *)
Definition parse_radix (s : string) : option (Z * string) :=
  match s with
  | String z (String c r) =>
      let base :=
        if Ascii.eqb c "x" || Ascii.eqb c "X" then 16
        else if Ascii.eqb c "o" || Ascii.eqb c "O" then 8
        else if Ascii.eqb c "b" || Ascii.eqb c "B" then 2
        else 0 in
      if Ascii.eqb z "0" && (0 <? base) then
        let '(v, cnt, r') := scan_radix base r 0 0 in
        match cnt with
        | O => None
        | _ => Some (v, r')
        end
      else None
  | _ => None
  end.

Definition StringToNumber (s : string) : number :=
  let t := skip_ws s in
  if all_ws t then S754_zero false
  else
    match parse_radix t with
    | Some (v, r) => if all_ws r then of_Z v else NaN
    | None =>
        let '(neg, body) := split_sign t in
        match strip_prefix "Infinity" body with
        | Some r => if all_ws r then S754_infinity neg else NaN
        | None =>
            match parse_decimal body with
            | Some (m, e, r) => if all_ws r then of_decimal neg m e else NaN
            | None => NaN
            end
        end
    end.

(** *** Numbers that are decimals *)

(** Is [x] a binary64 value: a mantissa of at most 53 bits at the least
    exponent that holds it? *)
Definition is_double (x : number) : bool := valid_binary prec emax x.

(** Is [x * 10^fd] an integer: has [x] at most [fd] digits after the
    point? *)
Definition has_digits (x : number) (fd : nat) : bool :=
  let '(p, q) := magnitude x in (p * 10 ^ Z.of_nat fd) mod q =? 0.

End JsNumber.

(** ** JavaScript values

    The primitive values a caller can pass to the material's methods and the
    material can hold, with the operations the class applies to them. *)

Module Js.
Import JsNumber.

Inductive value : Type :=
| Undefined
| Null
| Bool (b : bool)
| Num (x : number)
| Str (s : string).

(** The exceptions the language raises on its own. *)
Inductive error : Type :=
| TypeError
| RangeError.

(** [a === b]: IsStrictlyEqual.  On Numbers NaN differs from itself and
    the two zeros are equal. *)
Definition strict_eq (a b : value) : bool :=
  match a, b with
  | Undefined, Undefined => true
  | Null, Null => true
  | Bool x, Bool y => Bool.eqb x y
  | Num x, Num y => SFeqb x y
  | Str x, Str y => String.eqb x y
  | _, _ => false
  end.

Definition ToBoolean (v : value) : bool :=
  match v with
  | Undefined | Null => false
  | Bool b => b
  | Num (S754_zero _) | Num S754_nan => false
  | Num _ => true
  | Str s => negb (String.eqb s "")
  end.

(** [Number(v)]. *)
Definition ToNumber (v : value) : number :=
  match v with
  | Undefined => NaN
  | Null => S754_zero false
  | Bool b => if b then of_Z 1 else S754_zero false
  | Num x => x
  | Str s => StringToNumber s
  end.

Definition ToString (v : value) : string :=
  match v with
  | Undefined => "undefined"
  | Null => "null"
  | Bool b => if b then "true" else "false"
  | Num x => to_string x
  | Str s => s
  end.

(** [o.k] on an object literal with own properties [o]: a missing
    property reads as [undefined]. *)
Definition get (o : gmap string value) (k : string) : value :=
  default Undefined (o !! k).

Definition is_number (v : value) : bool :=
  match v with Num _ => true | _ => false end.

(** [v.toFixed(fd)] for [fd] between 0 and 100: only Numbers have the
    method; reading it off [undefined] or [null], or calling the
    [undefined] found on a boolean or a string, is a TypeError. *)
Definition call_toFixed (v : value) (fd : nat) : error + string :=
  match v with
  | Num x => inr (toFixed x fd)
  | _ => inl TypeError
  end.

End Js.

(** ** The comparison expressions, as the shader compiler reads them

    The material hands its settings to the host as preprocessor macros: the
    object-like macros [DEPTH_EPSILON], [DEPTH_TEST_STRATEGY], ... and the
    function-like macro [depthTest(d0, d1)], whose replacement text is the
    comparison.  The host's GLSL compiler is not part of the repository, so
    the part of it that gives that text a meaning is modelled here: the
    text is cut into tokens, object-like macros are replaced by the tokens
    of their values, and the result is parsed and evaluated with [d0] and
    [d1] bound to the two depth samples.  The arithmetic of the device is a
    parameter ([DepthNum]). *)

Module Glsl.

Inductive relop : Type := Lt | Le | Gt | Ge.

Inductive token : Type :=
| TId (x : string)
| TNum (m e : Z)            (* the literal m * 10^e *)
| TLParen
| TRParen
| TMinus
| TRel (op : relop)
| TOther (c : ascii).

Definition is_ident_char (c : ascii) : bool :=
  let n := nat_of_ascii c in
  ((48 <=? n) && (n <=? 57) || (65 <=? n) && (n <=? 90)
   || (97 <=? n) && (n <=? 122) || (n =? 95))%nat.

(** The longest prefix of identifier characters and the rest. *)
Fixpoint span_ident (s : string) : string * string :=
  match s with
  | String c s' =>
      if is_ident_char c then
        let '(x, r) := span_ident s' in (String c x, r)
      else (EmptyString, s)
  | EmptyString => (EmptyString, EmptyString)
  end.

Definition starts_number (s : string) : bool :=
  match s with
  | String c (String c' _) =>
      Decimal.is_digit c || (Ascii.eqb c "." && Decimal.is_digit c')
  | String c EmptyString => Decimal.is_digit c
  | EmptyString => false
  end.

(** Every round consumes at least one character, so [String.length s]
    rounds suffice. *)
Fixpoint lex_aux (fuel : nat) (s : string) : list token :=
  match fuel, s with
  | S fuel', String c s' =>
      if JsNumber.is_ws c then lex_aux fuel' s'
      else if starts_number s then
        match JsNumber.parse_decimal s with
        | Some (m, e, r) => TNum m e :: lex_aux fuel' r
        | None => TOther c :: lex_aux fuel' s'
        end
      else if is_ident_char c then
        let '(x, r) := span_ident s in TId x :: lex_aux fuel' r
      else if Ascii.eqb c "(" then TLParen :: lex_aux fuel' s'
      else if Ascii.eqb c ")" then TRParen :: lex_aux fuel' s'
      else if Ascii.eqb c "-" then TMinus :: lex_aux fuel' s'
      else if Ascii.eqb c "<" then
        match s' with
        | String "=" s'' => TRel Le :: lex_aux fuel' s''
        | _ => TRel Lt :: lex_aux fuel' s'
        end
      else if Ascii.eqb c ">" then
        match s' with
        | String "=" s'' => TRel Ge :: lex_aux fuel' s''
        | _ => TRel Gt :: lex_aux fuel' s'
        end
      else TOther c :: lex_aux fuel' s'
  | _, _ => []
  end.

Definition lex (s : string) : list token := lex_aux (String.length s) s.

(** Replaces each identifier that names an object-like macro by the
    tokens of its replacement text. *)
Fixpoint expand (macros : string -> option (list token)) (ts : list token)
  : list token :=
  match ts with
  | TId x :: ts' =>
      match macros x with
      | Some body => body ++ expand macros ts'
      | None => TId x :: expand macros ts'
      end
  | t :: ts' => t :: expand macros ts'
  | [] => []
  end.

Inductive expr : Type :=
| EBool (b : bool)
| ELit (m e : Z)
| EVar (x : string)
| ENeg (a : expr)
| ESub (a b : expr)
| ECall (f : string) (a : expr)
| ECmp (op : relop) (a b : expr).

Definition ident (x : string) : expr :=
  if String.eqb x "true" then EBool true
  else if String.eqb x "false" then EBool false
  else EVar x.

(** Recursive descent; [fuel] bounds the depth of the recursion.
<<
    unary ::= '-' unary | number | id | id '(' arith ')' | '(' arith ')'
    arith ::= unary ('-' unary)*
    expr  ::= arith (relop arith)?
>> *)
Fixpoint parse_unary (fuel : nat) (ts : list token) {struct fuel}
  : option (expr * list token) :=
  match fuel with
  | O => None
  | S fuel' =>
      match ts with
      | TMinus :: r =>
          '(a, r') ← parse_unary fuel' r; Some (ENeg a, r')
      | TNum m e :: r => Some (ELit m e, r)
      | TId f :: TLParen :: r =>
          '(a, r') ← parse_arith fuel' r;
          match r' with
          | TRParen :: r'' => Some (ECall f a, r'')
          | _ => None
          end
      | TId x :: r => Some (ident x, r)
      | TLParen :: r =>
          '(a, r') ← parse_arith fuel' r;
          match r' with
          | TRParen :: r'' => Some (a, r'')
          | _ => None
          end
      | _ => None
      end
  end
with parse_arith (fuel : nat) (ts : list token) {struct fuel}
  : option (expr * list token) :=
  match fuel with
  | O => None
  | S fuel' =>
      '(a, r) ← parse_unary fuel' ts; parse_tail fuel' a r
  end
with parse_tail (fuel : nat) (a : expr) (ts : list token) {struct fuel}
  : option (expr * list token) :=
  match fuel with
  | O => None
  | S fuel' =>
      match ts with
      | TMinus :: r =>
          '(b, r') ← parse_unary fuel' r; parse_tail fuel' (ESub a b) r'
      | _ => Some (a, ts)
      end
  end.

Definition parse (ts : list token) : option expr :=
  let fuel := (2 * List.length ts + 2)%nat in
  '(a, r) ← parse_arith fuel ts;
  match r with
  | [] => Some a
  | TRel op :: r' =>
      '(b, r'') ← parse_arith fuel r';
      match r'' with
      | [] => Some (ECmp op a b)
      | _ => None
      end
  | _ => None
  end.

(** The arithmetic of the execution target on depth samples. *)
Class DepthNum (D : Type) : Type := {
  dlit : Q -> D;            (* the value of a decimal literal *)
  dneg : D -> D;
  dsub : D -> D -> D;
  dabs : D -> D;
  dltb : D -> D -> bool;
  dleb : D -> D -> bool
}.

Definition lit_Q (m e : Z) : Q :=
  if 0 <=? e then inject_Z (m * 10 ^ e) else Qmake m (Z.to_pos (10 ^ (- e))).

Inductive result (D : Type) : Type :=
| RBool (b : bool)
| RFloat (d : D).
Arguments RBool {D} b.
Arguments RFloat {D} d.

Section Eval.
Context {D : Type} `{DepthNum D}.

Definition compare (op : relop) (a b : D) : bool :=
  match op with
  | Lt => dltb a b
  | Le => dleb a b
  | Gt => dltb b a
  | Ge => dleb b a
  end.

Definition as_float (r : result D) : option D :=
  match r with RFloat d => Some d | RBool _ => None end.

Definition as_bool (r : result D) : option bool :=
  match r with RBool b => Some b | RFloat _ => None end.

Fixpoint eval (env : string -> option D) (e : expr) : option (result D) :=
  match e with
  | EBool b => Some (RBool b)
  | ELit m e => Some (RFloat (dlit (lit_Q m e)))
  | EVar x => RFloat <$> env x
  | ENeg a => x ← eval env a ≫= as_float; Some (RFloat (dneg x))
  | ESub a b =>
      x ← eval env a ≫= as_float;
      y ← eval env b ≫= as_float;
      Some (RFloat (dsub x y))
  | ECall f a =>
      x ← eval env a ≫= as_float;
      if String.eqb f "abs" then Some (RFloat (dabs x)) else None
  | ECmp op a b =>
      x ← eval env a ≫= as_float;
      y ← eval env b ≫= as_float;
      Some (RBool (compare op x y))
  end.

(** The value of a replacement text that is a decimal literal, signed
    or not. *)
Definition tolerance (ts : list token) : option D :=
  match ts with
  | [TNum m e] => Some (dlit (lit_Q m e))
  | [TMinus; TNum m e] => Some (dneg (dlit (lit_Q m e)))
  | _ => None
  end.

(** [depthTest(x0, x1)] for a macro with formals [d0], [d1] and
    replacement text [body], under the object-like macros [macros]:
    [None] when the expansion is not a well-formed boolean
    expression. *)
Definition depthTest (macros : string -> option string) (body : string)
           (x0 x1 : D) : option bool :=
  let formals x := String.eqb x "d0" || String.eqb x "d1" in
  let table x := if formals x then None else lex <$> macros x in
  let env x :=
    if String.eqb x "d0" then Some x0
    else if String.eqb x "d1" then Some x1
    else None in
  e ← parse (expand table (lex body));
  eval env e ≫= as_bool.

End Eval.

(** Exact rational arithmetic as the arithmetic of the target. *)
#[export] Instance Q_DepthNum : DepthNum Q := {|
  dlit q := q;
  dneg := Qopp;
  dsub := Qminus;
  dabs := Qabs;
  dltb x y := negb (Qle_bool y x);
  dleb := Qle_bool
|}.

End Glsl.

(** ** The material *)

Module Material.
Import Js.
Local Open Scope string_scope.

(** The depth mode constants the file imports from three.js.  Their
    values belong to that library; the class only compares them with
    [===], so they are kept abstract. *)
Record DepthModes : Type := {
  NeverDepth : value;
  AlwaysDepth : value;
  EqualDepth : value;
  NotEqualDepth : value;
  LessDepth : value;
  LessEqualDepth : value;
  GreaterEqualDepth : value;
  GreaterDepth : value
}.

(** The numbering three.js gives them (its [constants.js]). *)
Definition three : DepthModes := {|
  NeverDepth := Num (JsNumber.of_Z 0);
  AlwaysDepth := Num (JsNumber.of_Z 1);
  LessDepth := Num (JsNumber.of_Z 2);
  LessEqualDepth := Num (JsNumber.of_Z 3);
  EqualDepth := Num (JsNumber.of_Z 4);
  GreaterEqualDepth := Num (JsNumber.of_Z 5);
  GreaterDepth := Num (JsNumber.of_Z 6);
  NotEqualDepth := Num (JsNumber.of_Z 7)
|}.

(** [export const DepthTestStrategy = { ... }] *)
Definition DepthTestStrategy : gmap string value :=
  {[ "DEFAULT" := Num (JsNumber.of_Z 0);
     "KEEP_MAX_DEPTH" := Num (JsNumber.of_Z 1);
     "DISCARD_MAX_DEPTH" := Num (JsNumber.of_Z 2) ]}.

(** The state of a [DepthMaskMaterial] object: the fields the class
    reads or writes.  [name], [defines], [depthWrite] and [depthTest] are
    set through the base class constructor; the uniforms, the blending
    constant and the two shader texts it also receives belong to the
    host and are left out. *)
Record DepthMaskMaterial : Type := {
  name : string;
  defines : gmap string value;
  depthWrite : bool;
  depthTest : bool;
  toneMapped : bool;
  depthMode : value;
  needsUpdate : bool
}.

Definition with_defines (d : gmap string value) (this : DepthMaskMaterial) :=
  {| name := name this; defines := d; depthWrite := depthWrite this;
     depthTest := depthTest this; toneMapped := toneMapped this;
     depthMode := depthMode this; needsUpdate := needsUpdate this |}.

Definition with_toneMapped (b : bool) (this : DepthMaskMaterial) :=
  {| name := name this; defines := defines this;
     depthWrite := depthWrite this; depthTest := depthTest this;
     toneMapped := b; depthMode := depthMode this;
     needsUpdate := needsUpdate this |}.

Definition with_depthMode (m : value) (this : DepthMaskMaterial) :=
  {| name := name this; defines := defines this;
     depthWrite := depthWrite this; depthTest := depthTest this;
     toneMapped := toneMapped this; depthMode := m;
     needsUpdate := needsUpdate this |}.

Definition with_needsUpdate (b : bool) (this : DepthMaskMaterial) :=
  {| name := name this; defines := defines this;
     depthWrite := depthWrite this; depthTest := depthTest this;
     toneMapped := toneMapped this; depthMode := depthMode this;
     needsUpdate := b |}.

(** *** Method bodies: state and exceptions

    A method body runs on the object and either returns or throws; in
    both cases it leaves the object in some state. *)

Inductive outcome (A : Type) : Type :=
| Return (a : A)
| Throw (e : error).
Arguments Return {A} a.
Arguments Throw {A} e.

Definition method (A : Type) : Type :=
  DepthMaskMaterial -> outcome A * DepthMaskMaterial.

Definition ret {A} (a : A) : method A := fun this => (Return a, this).

Definition throw {A} (e : error) : method A := fun this => (Throw e, this).

Definition bind {A B} (c : method A) (k : A -> method B) : method B :=
  fun this =>
    match c this with
    | (Return a, this') => k a this'
    | (Throw e, this') => (Throw e, this')
    end.

Notation "x <- c ;; k" := (bind c (fun x => k))
  (at level 100, c at next level, right associativity).
Notation "c ;; k" := (bind c (fun _ => k))
  (at level 100, right associativity).

Definition update (f : DepthMaskMaterial -> DepthMaskMaterial) : method unit :=
  fun this => (Return tt, f this).

(** [this.defines[k] = v] *)
Definition set_define (k : string) (v : value) : method unit :=
  update (fun this => with_defines (<[k := v]> (defines this)) this).

Definition lift {A} (r : error + A) : method A :=
  match r with
  | inr a => ret a
  | inl e => throw e
  end.

(** The object a method leaves behind, and what it answered. *)
Definition after {A} (c : method A) (this : DepthMaskMaterial)
  : DepthMaskMaterial := snd (c this).

Definition answer {A} (c : method A) (this : DepthMaskMaterial)
  : outcome A := fst (c this).

(** *** The class *)

Section Class.
Variable M : DepthModes.

(** The [switch] of [setDepthMode]: the cases are tried in the order
    they are written, each with [===]. *)
Definition depthTest_text (mode : value) : string :=
  if strict_eq mode (NeverDepth M) then "false"
  else if strict_eq mode (AlwaysDepth M) then "true"
  else if strict_eq mode (EqualDepth M) then "abs(d1 - d0) <= DEPTH_EPSILON"
  else if strict_eq mode (NotEqualDepth M) then "abs(d1 - d0) > DEPTH_EPSILON"
  else if strict_eq mode (LessDepth M) then "d0 > d1"
  else if strict_eq mode (LessEqualDepth M) then "d0 >= d1"
  else if strict_eq mode (GreaterEqualDepth M) then "d0 <= d1"
  else if strict_eq mode (GreaterDepth M) then "d0 < d1"
  else "d0 < d1".

Definition setDepthMode (mode : value) : method unit :=
  let depthTest := depthTest_text mode in
  update (with_depthMode mode) ;;
  set_define "depthTest(d0, d1)" (Str depthTest) ;;
  update (with_needsUpdate true).

Definition getDepthMode (this : DepthMaskMaterial) : value :=
  depthMode this.

Definition getMaxDepthStrategy (this : DepthMaskMaterial) : value :=
  Num (ToNumber (get (defines this) "DEPTH_TEST_STRATEGY")).

Definition setMaxDepthStrategy (v : value) : method unit :=
  text <- lift (call_toFixed v 0) ;;
  set_define "DEPTH_TEST_STRATEGY" (Str text) ;;
  update (with_needsUpdate true).

Definition get_keepFar (this : DepthMaskMaterial) : value :=
  Bool (strict_eq (getMaxDepthStrategy this) (get DepthTestStrategy "KEEP")).

Definition set_keepFar (v : value) : method unit :=
  setMaxDepthStrategy
    (if ToBoolean v then get DepthTestStrategy "KEEP_MAX_DEPTH"
     else get DepthTestStrategy "DISCARD_MAX_DEPTH").

Definition getEpsilon (this : DepthMaskMaterial) : value :=
  Num (ToNumber (get (defines this) "DEPTH_EPSILON")).

Definition setEpsilon (v : value) : method unit :=
  text <- lift (call_toFixed v 16) ;;
  set_define "DEPTH_EPSILON" (Str text) ;;
  update (with_needsUpdate true).

(** The object as the base class constructor leaves it. *)
Definition super : DepthMaskMaterial := {|
  name := "DepthMaskMaterial";
  defines :=
    {[ "DEPTH_EPSILON" := Str "0.00001";
       "DEPTH_PACKING_0" := Str "0";
       "DEPTH_PACKING_1" := Str "0";
       "DEPTH_TEST_STRATEGY" := get DepthTestStrategy "KEEP_MAX_DEPTH" ]};
  depthWrite := false;
  depthTest := false;
  toneMapped := true;
  depthMode := Undefined;
  needsUpdate := false
|}.

Definition constructor : method unit :=
  update (with_toneMapped false) ;;
  update (with_depthMode (LessDepth M)) ;;
  setDepthMode (LessDepth M).

(** [new DepthMaskMaterial()] *)
Definition new : DepthMaskMaterial := after constructor super.

(** *** Histories of an object *)

Inductive call : Type :=
| SetDepthMode (mode : value)
| SetEpsilon (v : value)
| SetMaxDepthStrategy (v : value)
| SetKeepFar (v : value).

Definition perform (c : call) : method unit :=
  match c with
  | SetDepthMode mode => setDepthMode mode
  | SetEpsilon v => setEpsilon v
  | SetMaxDepthStrategy v => setMaxDepthStrategy v
  | SetKeepFar v => set_keepFar v
  end.

(** The objects a program can hold: a new one, and whatever a setter
    call leaves of one, whether the call returned or threw. *)
Inductive reachable : DepthMaskMaterial -> Prop :=
| reachable_new : reachable new
| reachable_call c this :
    reachable this -> reachable (after (perform c) this).

(** *** What the host makes of the defines *)

(** The replacement text of the object-like macro [x]. *)
Definition macros (this : DepthMaskMaterial) (x : string) : option string :=
  ToString <$> (defines this !! x).

(** The keep decision for the depth samples [d0] and [d1]: [Some true]
    keeps the texel, [Some false] discards it, [None] means the
    material's defines do not compile. *)
Definition keep {D} `{Glsl.DepthNum D} (this : DepthMaskMaterial)
           (d0 d1 : D) : option bool :=
  body ← macros this "depthTest(d0, d1)";
  Glsl.depthTest (macros this) body d0 d1.

End Class.
End Material.

(** ** The specification's vocabulary *)

Module Spec.
Import Js Glsl Material.

(** The closed enumeration of depth comparison modes. *)
Inductive DepthComparisonMode : Type :=
| Never | Always | Equal | NotEqual
| Less | LessOrEqual | Greater | GreaterOrEqual.

#[export] Instance DepthComparisonMode_eq_dec : EqDecision DepthComparisonMode.
Proof. solve_decision. Defined.

(** The three.js constant that stands for a mode. *)
Definition mode_value (M : DepthModes) (c : DepthComparisonMode) : value :=
  match c with
  | Never => NeverDepth M
  | Always => AlwaysDepth M
  | Equal => EqualDepth M
  | NotEqual => NotEqualDepth M
  | Less => LessDepth M
  | LessOrEqual => LessEqualDepth M
  | Greater => GreaterDepth M
  | GreaterOrEqual => GreaterEqualDepth M
  end.

(** The eight constants are eight different values, each equal to
    itself: what makes them an enumeration under [===]. *)
Definition enumeration (M : DepthModes) : Prop :=
  forall c c', strict_eq (mode_value M c) (mode_value M c') = bool_decide (c = c').

(** A value outside the enumeration. *)
Definition unrecognized (M : DepthModes) (mode : value) : Prop :=
  forall c, strict_eq mode (mode_value M c) = false.

(** The modes whose keep condition mentions the tolerance. *)
Definition uses_epsilon (c : DepthComparisonMode) : bool :=
  match c with
  | Equal | NotEqual => true
  | _ => false
  end.

Section TruthTable.
Context {D : Type} `{DepthNum D}.

(** The keep condition of each mode: the table of the specification,
    row by row. *)
Definition truth_table (c : DepthComparisonMode) (epsilon d0 d1 : D) : bool :=
  match c with
  | Never => false
  | Always => true
  | Equal => compare Le (dabs (dsub d1 d0)) epsilon
  | NotEqual => compare Gt (dabs (dsub d1 d0)) epsilon
  | Less => compare Gt d0 d1
  | LessOrEqual => compare Ge d0 d1
  | Greater => compare Lt d0 d1
  | GreaterOrEqual => compare Le d0 d1
  end.

(** The tolerance the target sees: the value of the [DEPTH_EPSILON]
    macro when its text is a decimal literal, signed or not. *)
Definition epsilon_of (this : DepthMaskMaterial) : option D :=
  text ← macros this "DEPTH_EPSILON"; tolerance (lex text).
End TruthTable.

(** The defines of every object a program can hold: the two packing
    macros as the constructor wrote them, a strategy code, a tolerance
    text and the comparison of the current mode. *)
Definition packing : gmap string value :=
  {[ "DEPTH_PACKING_0" := Str "0"; "DEPTH_PACKING_1" := Str "0" ]}.

Definition layout (test epsilon : string) (strategy : value)
  : gmap string value :=
  <["depthTest(d0, d1)" := Str test]>
    (<["DEPTH_EPSILON" := Str epsilon]>
       (<["DEPTH_TEST_STRATEGY" := strategy]> packing)).

Definition consistent (M : DepthModes) (this : DepthMaskMaterial) : Prop :=
  exists epsilon strategy,
    defines this = layout (depthTest_text M (depthMode this)) epsilon strategy.

(** Sample tolerances: the Numbers written [1e-5] (the default), [1e-17]
    and [-0.001] in the language. *)
Definition default_epsilon : JsNumber.number := JsNumber.of_decimal false 1 (-5).
Definition tiny_epsilon : JsNumber.number := JsNumber.of_decimal false 1 (-17).
Definition negative_epsilon : JsNumber.number := JsNumber.of_decimal true 1 (-3).

(** The strategy codes by name. *)
Definition KEEP_MAX_DEPTH : value := get DepthTestStrategy "KEEP_MAX_DEPTH".
Definition DISCARD_MAX_DEPTH : value := get DepthTestStrategy "DISCARD_MAX_DEPTH".

(** The mode that keeps exactly what [c] discards, in an arithmetic where
    [a < b] is the negation of [b <= a]. *)
Definition opposite (c : DepthComparisonMode) : DepthComparisonMode :=
  match c with
  | Never => Always
  | Always => Never
  | Equal => NotEqual
  | NotEqual => Equal
  | Less => GreaterOrEqual
  | GreaterOrEqual => Less
  | Greater => LessOrEqual
  | LessOrEqual => Greater
  end.

(** The mode that decides on [(d1, d0)] as [c] does on [(d0, d1)]. *)
Definition mirrored (c : DepthComparisonMode) : DepthComparisonMode :=
  match c with
  | Less => Greater
  | Greater => Less
  | LessOrEqual => GreaterOrEqual
  | GreaterOrEqual => LessOrEqual
  | c => c
  end.

(** The comparison texts [setDepthMode] can write. *)
Definition comparison_texts : list string :=
  ["false"; "true"; "abs(d1 - d0) <= DEPTH_EPSILON";
   "abs(d1 - d0) > DEPTH_EPSILON"; "d0 > d1"; "d0 >= d1"; "d0 <= d1";
   "d0 < d1"].

(** The keys of the defines. *)
Definition define_keys : gset string :=
  {[ "depthTest(d0, d1)"; "DEPTH_EPSILON"; "DEPTH_TEST_STRATEGY";
     "DEPTH_PACKING_0"; "DEPTH_PACKING_1" ]}.

End Spec.

(** ** The build script's watch message

    [esbuild.ts] builds asynchronously through the esbuild service and
    watches the file system; of it only the text it logs when it starts
    watching is a function of values: [sourceDirectories] joined with a
    comma and a space, in which [replace] then rewrites the one match of a
    regular expression: a comma and a space followed, up to the end of the
    string, by a group of characters other than commas. *)

Module Esbuild.
Local Open Scope string_scope.

(** [l.join(sep)] on an array of strings. *)
Fixpoint join (sep : string) (l : list string) : string :=
  match l with
  | [] => ""
  | [a] => a
  | a :: l' => a +:+ sep +:+ join sep l'
  end.

Fixpoint has_comma (s : string) : bool :=
  match s with
  | EmptyString => false
  | String c s' => Ascii.eqb c "," || has_comma s'
  end.

(** Does the regular expression match at the start of [s]?  If so, its
    group: a comma and a space followed, up to the end of the string, by
    characters that are no commas. *)
Definition match_here (s : string) : option string :=
  match s with
  | String c (String c' g) =>
      if Ascii.eqb c "," && Ascii.eqb c' " " && negb (has_comma g)
      then Some g else None
  | _ => None
  end.

(** [s.replace(regexp, " and $1")] for that expression: the leftmost
    match, if there is one, is replaced by [" and "] and the group. *)
Fixpoint replace (s : string) : string :=
  match match_here s with
  | Some g => " and " +:+ g
  | None =>
      match s with
      | String c s' => String c (replace s')
      | EmptyString => EmptyString
      end
  end.

(** The list of directories named in the message. *)
Definition watched (sourceDirectories : list string) : string :=
  replace (join ", " sourceDirectories).

End Esbuild.

(** * Properties *)

Import Js Glsl Material Spec.
Local Open Scope string_scope.

(** ** Running the setters *)

Lemma setDepthMode_runs M mode this :
  setDepthMode M mode this =
  (Return tt,
   with_needsUpdate true
     (with_defines
        (<["depthTest(d0, d1)" := Str (depthTest_text M mode)]> (defines this))
        (with_depthMode mode this))).
Proof. reflexivity. Qed.

Lemma setEpsilon_number x this :
  setEpsilon (Num x) this =
  (Return tt,
   with_needsUpdate true
     (with_defines
        (<["DEPTH_EPSILON" := Str (JsNumber.toFixed x 16)]> (defines this)) this)).
Proof. reflexivity. Qed.

Lemma setMaxDepthStrategy_number x this :
  setMaxDepthStrategy (Num x) this =
  (Return tt,
   with_needsUpdate true
     (with_defines
        (<["DEPTH_TEST_STRATEGY" := Str (JsNumber.toFixed x 0)]> (defines this))
        this)).
Proof. reflexivity. Qed.

Lemma setEpsilon_other v this :
  is_number v = false -> setEpsilon v this = (Throw TypeError, this).
Proof. destruct v; simpl; intros E; try discriminate; reflexivity. Qed.

Lemma setMaxDepthStrategy_other v this :
  is_number v = false -> setMaxDepthStrategy v this = (Throw TypeError, this).
Proof. destruct v; simpl; intros E; try discriminate; reflexivity. Qed.

(** The legacy setter always passes one of the two strategy codes on. *)
Lemma set_keepFar_runs v this :
  set_keepFar v this =
  setMaxDepthStrategy (if ToBoolean v then KEEP_MAX_DEPTH else DISCARD_MAX_DEPTH) this.
Proof. reflexivity. Qed.

Lemma strategy_codes :
  KEEP_MAX_DEPTH = Num (JsNumber.of_Z 1) /\ DISCARD_MAX_DEPTH = Num (JsNumber.of_Z 2).
Proof. split; vm_compute; reflexivity. Qed.

(** ** The defines of a reachable object *)

Lemma super_defines :
  defines super =
  <["DEPTH_EPSILON" := Str "0.00001"]>
    (<["DEPTH_TEST_STRATEGY" := KEEP_MAX_DEPTH]> packing).
Proof. vm_compute. reflexivity. Qed.

Lemma layout_test t t' e s :
  <["depthTest(d0, d1)" := Str t']> (layout t e s) = layout t' e s.
Proof. unfold layout. apply insert_insert_eq. Qed.

Lemma layout_epsilon t e e' s :
  <["DEPTH_EPSILON" := Str e']> (layout t e s) = layout t e' s.
Proof.
  unfold layout.
  rewrite (insert_insert_ne _ "DEPTH_EPSILON" "depthTest(d0, d1)") by done.
  by rewrite insert_insert_eq.
Qed.

Lemma layout_strategy t e s s' :
  <["DEPTH_TEST_STRATEGY" := s']> (layout t e s) = layout t e s'.
Proof.
  unfold layout.
  rewrite (insert_insert_ne _ "DEPTH_TEST_STRATEGY" "depthTest(d0, d1)") by done.
  rewrite (insert_insert_ne _ "DEPTH_TEST_STRATEGY" "DEPTH_EPSILON") by done.
  by rewrite insert_insert_eq.
Qed.

Lemma new_consistent M : consistent M (new M).
Proof.
  exists "0.00001", KEEP_MAX_DEPTH.
  change (defines (new M))
    with (<["depthTest(d0, d1)" := Str (depthTest_text M (LessDepth M))]>
            (defines super)).
  by rewrite super_defines.
Qed.

Lemma setMaxDepthStrategy_consistent M v this :
  consistent M this -> consistent M (after (setMaxDepthStrategy v) this).
Proof.
  intros (e & s & E).
  destruct (is_number v) eqn:N.
  - destruct v; try discriminate. unfold after.
    rewrite setMaxDepthStrategy_number. simpl.
    exists e, (Str (JsNumber.toFixed x 0)). rewrite E. apply layout_strategy.
  - unfold after. rewrite setMaxDepthStrategy_other by done. by exists e, s.
Qed.

Lemma perform_consistent M c this :
  consistent M this -> consistent M (after (perform M c) this).
Proof.
  intros C. destruct c as [mode | v | v | v]; simpl.
  - destruct C as (e & s & E). unfold after. rewrite setDepthMode_runs. simpl.
    exists e, s. rewrite E. apply layout_test.
  - destruct C as (e & s & E). destruct (is_number v) eqn:N.
    + destruct v; try discriminate. unfold after.
      rewrite setEpsilon_number. simpl.
      exists (JsNumber.toFixed x 16), s. rewrite E. apply layout_epsilon.
    + unfold after. rewrite setEpsilon_other by done. by exists e, s.
  - by apply setMaxDepthStrategy_consistent.
  - unfold after. rewrite set_keepFar_runs.
    by apply setMaxDepthStrategy_consistent.
Qed.

Lemma reachable_consistent M this : reachable M this -> consistent M this.
Proof.
  induction 1 as [| c this R IH].
  - apply new_consistent.
  - by apply perform_consistent.
Qed.

(** ** Reading the eight comparison texts *)

Section Reading.
Context {D : Type} `{DepthNum D}.
Variable macros : string -> option string.
Variables x0 x1 : D.

Ltac read_text :=
  unfold Glsl.depthTest;
  match goal with
  | |- context [lex ?body] =>
      let ts := eval vm_compute in (lex body) in
      change (lex body) with ts
  end;
  cbn [expand String.eqb Ascii.eqb Bool.eqb orb];
  repeat match goal with
    | E : macros _ = _ |- _ => rewrite E; clear E
    | E : lex _ = _ |- _ => cbn [fmap option_fmap option_map]; rewrite E; clear E
    end;
  reflexivity.

Lemma read_false :
  macros "false" = None -> Glsl.depthTest macros "false" x0 x1 = Some false.
Proof. intros E. read_text. Qed.

Lemma read_true :
  macros "true" = None -> Glsl.depthTest macros "true" x0 x1 = Some true.
Proof. intros E. read_text. Qed.

Lemma read_gt : Glsl.depthTest macros "d0 > d1" x0 x1 = Some (compare Gt x0 x1).
Proof. read_text. Qed.

Lemma read_ge : Glsl.depthTest macros "d0 >= d1" x0 x1 = Some (compare Ge x0 x1).
Proof. read_text. Qed.

Lemma read_le : Glsl.depthTest macros "d0 <= d1" x0 x1 = Some (compare Le x0 x1).
Proof. read_text. Qed.

Lemma read_lt : Glsl.depthTest macros "d0 < d1" x0 x1 = Some (compare Lt x0 x1).
Proof. read_text. Qed.

Lemma read_equal text eps :
  macros "abs" = None ->
  macros "DEPTH_EPSILON" = Some text ->
  tolerance (lex text) = Some eps ->
  Glsl.depthTest macros "abs(d1 - d0) <= DEPTH_EPSILON" x0 x1
  = Some (compare Le (dabs (dsub x1 x0)) eps).
Proof.
  intros A E T. unfold tolerance in T.
  destruct (lex text) as [| [ | m e | | | | |] [| [ | m' e' | | | | |] [|]]] eqn:L;
    try discriminate; injection T as <-; read_text.
Qed.

Lemma read_not_equal text eps :
  macros "abs" = None ->
  macros "DEPTH_EPSILON" = Some text ->
  tolerance (lex text) = Some eps ->
  Glsl.depthTest macros "abs(d1 - d0) > DEPTH_EPSILON" x0 x1
  = Some (compare Gt (dabs (dsub x1 x0)) eps).
Proof.
  intros A E T. unfold tolerance in T.
  destruct (lex text) as [| [ | m e | | | | |] [| [ | m' e' | | | | |] [|]]] eqn:L;
    try discriminate; injection T as <-; read_text.
Qed.

End Reading.

(** ** The switch of [setDepthMode] *)

(** The text each mode is given, read off the [case] labels. *)
Lemma depthTest_text_enumerated M c :
  enumeration M ->
  depthTest_text M (mode_value M c) =
  match c with
  | Never => "false"
  | Always => "true"
  | Equal => "abs(d1 - d0) <= DEPTH_EPSILON"
  | NotEqual => "abs(d1 - d0) > DEPTH_EPSILON"
  | Less => "d0 > d1"
  | LessOrEqual => "d0 >= d1"
  | GreaterOrEqual => "d0 <= d1"
  | Greater => "d0 < d1"
  end.
Proof.
  intros E. unfold depthTest_text.
  pose proof (E c Never) as H1. pose proof (E c Always) as H2.
  pose proof (E c Equal) as H3. pose proof (E c NotEqual) as H4.
  pose proof (E c Less) as H5. pose proof (E c LessOrEqual) as H6.
  pose proof (E c GreaterOrEqual) as H7. pose proof (E c Greater) as H8.
  cbn [mode_value] in H1, H2, H3, H4, H5, H6, H7, H8.
  rewrite H1, H2, H3, H4, H5, H6, H7, H8.
  destruct c; reflexivity.
Qed.

Lemma depthTest_text_unrecognized M mode :
  unrecognized M mode -> depthTest_text M mode = "d0 < d1".
Proof.
  intros U. unfold depthTest_text.
  pose proof (U Never) as H1. pose proof (U Always) as H2.
  pose proof (U Equal) as H3. pose proof (U NotEqual) as H4.
  pose proof (U Less) as H5. pose proof (U LessOrEqual) as H6.
  pose proof (U GreaterOrEqual) as H7. pose proof (U Greater) as H8.
  cbn [mode_value] in H1, H2, H3, H4, H5, H6, H7, H8.
  by rewrite H1, H2, H3, H4, H5, H6, H7, H8.
Qed.

Lemma three_enumeration : enumeration three.
Proof. intros c c'. destruct c, c'; vm_compute; reflexivity. Qed.

(** ** The macros of a consistent object *)

Lemma layout_lookup_test t e s :
  layout t e s !! "depthTest(d0, d1)" = Some (Str t).
Proof. apply lookup_insert_eq. Qed.

Lemma layout_lookup_epsilon t e s :
  layout t e s !! "DEPTH_EPSILON" = Some (Str e).
Proof.
  unfold layout. rewrite lookup_insert_ne by done. apply lookup_insert_eq.
Qed.

Lemma layout_lookup_strategy t e s :
  layout t e s !! "DEPTH_TEST_STRATEGY" = Some s.
Proof.
  unfold layout. rewrite !lookup_insert_ne by done. apply lookup_insert_eq.
Qed.

Lemma layout_lookup_other t e s k :
  k ≠ "depthTest(d0, d1)" -> k ≠ "DEPTH_EPSILON" ->
  k ≠ "DEPTH_TEST_STRATEGY" -> k ≠ "DEPTH_PACKING_0" ->
  k ≠ "DEPTH_PACKING_1" ->
  layout t e s !! k = None.
Proof.
  intros. unfold layout, packing.
  rewrite !lookup_insert_ne by done. by apply lookup_singleton_ne.
Qed.

Lemma consistent_test M this :
  consistent M this ->
  macros this "depthTest(d0, d1)" = Some (depthTest_text M (depthMode this)).
Proof.
  intros (e & s & E). unfold macros. by rewrite E, layout_lookup_test.
Qed.

Lemma consistent_no_macro M this k :
  consistent M this ->
  k ≠ "depthTest(d0, d1)" -> k ≠ "DEPTH_EPSILON" ->
  k ≠ "DEPTH_TEST_STRATEGY" -> k ≠ "DEPTH_PACKING_0" ->
  k ≠ "DEPTH_PACKING_1" ->
  macros this k = None.
Proof.
  intros (e & s & E) **. unfold macros. by rewrite E, layout_lookup_other.
Qed.

Lemma setDepthMode_keeps_epsilon M mode this :
  macros (after (setDepthMode M mode) this) "DEPTH_EPSILON"
  = macros this "DEPTH_EPSILON".
Proof.
  unfold after, macros. rewrite setDepthMode_runs. simpl.
  by rewrite lookup_insert_ne.
Qed.

(** ** The keep decision of a consistent object *)

Section Decision.
Context {D : Type} `{DepthNum D}.
Variable M : DepthModes.
Hypothesis modes : enumeration M.

Lemma keep_consistent this (d0 d1 : D) :
  consistent M this ->
  keep this d0 d1
  = Glsl.depthTest (macros this) (depthTest_text M (depthMode this)) d0 d1.
Proof. intros C. unfold keep. by rewrite (consistent_test M this C). Qed.

Lemma keep_without_epsilon c this (eps d0 d1 : D) :
  consistent M this ->
  depthMode this = mode_value M c ->
  uses_epsilon c = false ->
  keep this d0 d1 = Some (truth_table c eps d0 d1).
Proof.
  intros C E U. rewrite keep_consistent by done.
  rewrite E, depthTest_text_enumerated by done.
  destruct c; try discriminate; simpl truth_table.
  - apply read_false. by apply (consistent_no_macro M).
  - apply read_true. by apply (consistent_no_macro M).
  - apply read_gt.
  - apply read_ge.
  - apply read_lt.
  - apply read_le.
Qed.

Lemma keep_with_epsilon c this (eps d0 d1 : D) :
  consistent M this ->
  depthMode this = mode_value M c ->
  epsilon_of this = Some eps ->
  uses_epsilon c = true ->
  keep this d0 d1 = Some (truth_table c eps d0 d1).
Proof.
  intros C E T U. rewrite keep_consistent by done.
  rewrite E, depthTest_text_enumerated by done.
  unfold epsilon_of in T.
  destruct (macros this "DEPTH_EPSILON") as [text |] eqn:Q; [| discriminate].
  simpl in T.
  destruct c; try discriminate; simpl truth_table.
  - apply (read_equal _ _ _ text); try done. by apply (consistent_no_macro M).
  - apply (read_not_equal _ _ _ text); try done.
    by apply (consistent_no_macro M).
Qed.

Lemma keep_enumerated c this (eps d0 d1 : D) :
  consistent M this ->
  depthMode this = mode_value M c ->
  epsilon_of this = Some eps ->
  keep this d0 d1 = Some (truth_table c eps d0 d1).
Proof.
  intros. destruct (uses_epsilon c) eqn:U.
  - by apply keep_with_epsilon.
  - by apply keep_without_epsilon.
Qed.

Lemma keep_fallback this (d0 d1 : D) :
  consistent M this ->
  unrecognized M (depthMode this) ->
  keep this d0 d1 = Some (compare Lt d0 d1).
Proof.
  intros C U. rewrite keep_consistent by done.
  rewrite depthTest_text_unrecognized by done. apply read_lt.
Qed.

Lemma epsilon_of_setDepthMode mode this :
  epsilon_of (D := D) (after (setDepthMode M mode) this) = epsilon_of this.
Proof. unfold epsilon_of. by rewrite setDepthMode_keeps_epsilon. Qed.

Lemma reachable_setDepthMode mode this :
  reachable M this -> reachable M (after (setDepthMode M mode) this).
Proof. intros R. apply (reachable_call M (SetDepthMode mode) this R). Qed.

Lemma reachable_setEpsilon v this :
  reachable M this -> reachable M (after (setEpsilon v) this).
Proof. intros R. apply (reachable_call M (SetEpsilon v) this R). Qed.

Lemma reachable_setMaxDepthStrategy v this :
  reachable M this -> reachable M (after (setMaxDepthStrategy v) this).
Proof. intros R. apply (reachable_call M (SetMaxDepthStrategy v) this R). Qed.

Lemma depthMode_setDepthMode mode this :
  depthMode (after (setDepthMode M mode) this) = mode.
Proof. reflexivity. Qed.

End Decision.

(** ** The depth modes *)

(** C1: for each of the eight modes, [setDepthMode] returns and leaves a
    [depthTest(d0, d1)] macro whose keep decision, for every pair of depth
    samples and the tolerance the object holds, is the mode's row of the
    truth table: Never keeps nothing, Always everything, Equal keeps when
    [abs(d1 - d0) <= epsilon], NotEqual when [abs(d1 - d0) > epsilon], Less
    when [d0 > d1], LessOrEqual when [d0 >= d1], Greater when [d0 < d1],
    GreaterOrEqual when [d0 <= d1]; in particular on equal samples. *)
Theorem setDepthMode_truth_table
    (M : DepthModes) {D : Type} `{DepthNum D}
    (c : DepthComparisonMode) (this : DepthMaskMaterial) (epsilon d0 d1 : D) :
  enumeration M ->
  reachable M this ->
  epsilon_of this = Some epsilon ->
  let this' := after (setDepthMode M (mode_value M c)) this in
  answer (setDepthMode M (mode_value M c)) this = Return tt /\
  getDepthMode this' = mode_value M c /\
  keep this' d0 d1 = Some (truth_table c epsilon d0 d1) /\
  keep this' d0 d0 = Some (truth_table c epsilon d0 d0).
Proof.
  intros modes R E this'.
  assert (consistent M this') as C
    by (apply reachable_consistent; by apply reachable_setDepthMode).
  assert (epsilon_of this' = Some epsilon) as E'
    by (unfold this'; by rewrite epsilon_of_setDepthMode).
  repeat split; try reflexivity; by apply (keep_enumerated M).
Qed.

Lemma setDepthMode_truth_table_witness :
  enumeration three /\
  reachable three (new three) /\
  epsilon_of (new three) = Some (1 # 100000)%Q /\
  keep (after (setDepthMode three (mode_value three Equal)) (new three))
       (1 # 2)%Q (1 # 2)%Q
  = Some (truth_table Equal (1 # 100000)%Q (1 # 2)%Q (1 # 2)%Q).
Proof.
  split; [| split; [| split]].
  - intros c c'. destruct c, c'; vm_compute; reflexivity.
  - apply reachable_new.
  - vm_compute. reflexivity.
  - apply (setDepthMode_truth_table three Equal (new three)
             (1 # 100000)%Q (1 # 2)%Q (1 # 2)%Q).
    + intros c c'. destruct c, c'; vm_compute; reflexivity.
    + apply reachable_new.
    + vm_compute. reflexivity.
Defined.

(** C2: a mode value that is none of the eight constants is accepted,
    [setDepthMode] returns, and the macro it leaves is the Greater
    comparison [d0 < d1]: the defines, and so the keep decision, are those
    [setDepthMode(GreaterDepth)] leaves. *)
Theorem setDepthMode_unrecognized
    (M : DepthModes) {D : Type} `{DepthNum D}
    (mode : value) (this : DepthMaskMaterial) (d0 d1 : D) :
  enumeration M ->
  reachable M this ->
  unrecognized M mode ->
  let this' := after (setDepthMode M mode) this in
  let greater := after (setDepthMode M (GreaterDepth M)) this in
  answer (setDepthMode M mode) this = Return tt /\
  defines this' !! "depthTest(d0, d1)" = Some (Str "d0 < d1") /\
  defines this' = defines greater /\
  keep this' d0 d1 = Some (compare Lt d0 d1) /\
  keep this' d0 d1 = keep greater d0 d1.
Proof.
  intros modes R U this' greater.
  assert (depthTest_text M mode = "d0 < d1") as T
    by by apply depthTest_text_unrecognized.
  assert (depthTest_text M (GreaterDepth M) = "d0 < d1") as G
    by apply (depthTest_text_enumerated M Greater modes).
  assert (keep this' d0 d1 = Some (compare Lt d0 d1)) as K.
  { apply (keep_fallback M); [| done].
    apply reachable_consistent. by apply reachable_setDepthMode. }
  assert (keep greater d0 d1 = Some (compare Lt d0 d1)) as K'.
  { apply (keep_without_epsilon M modes Greater greater d0); try done.
    apply reachable_consistent. by apply reachable_setDepthMode. }
  repeat split; try done.
  - unfold this', after. rewrite setDepthMode_runs. simpl.
    rewrite T. apply lookup_insert_eq.
  - unfold this', greater, after. rewrite !setDepthMode_runs. simpl.
    by rewrite T, G.
  - by rewrite K, K'.
Qed.

Lemma setDepthMode_unrecognized_witness :
  enumeration three /\
  reachable three (new three) /\
  unrecognized three (Str "LessDepth") /\
  keep (after (setDepthMode three (Str "LessDepth")) (new three))
       (3 # 10)%Q (1 # 2)%Q
  = Some (compare Lt (3 # 10)%Q (1 # 2)%Q).
Proof.
  split; [| split; [| split]].
  - intros c c'. destruct c, c'; vm_compute; reflexivity.
  - apply reachable_new.
  - intros c. destruct c; reflexivity.
  - apply (setDepthMode_unrecognized three (Str "LessDepth") (new three)).
    + intros c c'. destruct c, c'; vm_compute; reflexivity.
    + apply reachable_new.
    + intros c. destruct c; reflexivity.
Defined.

(** ** The tolerance and the other modes *)

(** C9: under a mode other than Equal and NotEqual, or under a value that
    is no mode at all, the keep decision does not depend on the tolerance:
    two objects with that mode decide alike on every pair of samples,
    whatever [setEpsilon] was given on either. *)
Theorem epsilon_irrelevant
    (M : DepthModes) {D : Type} `{DepthNum D}
    (mode : value) (this1 this2 : DepthMaskMaterial) (d0 d1 : D) :
  enumeration M ->
  reachable M this1 ->
  reachable M this2 ->
  getDepthMode this1 = mode ->
  getDepthMode this2 = mode ->
  unrecognized M mode \/
    (exists c, uses_epsilon c = false /\ mode = mode_value M c) ->
  (exists b, keep this1 d0 d1 = Some b /\ keep this2 d0 d1 = Some b) /\
  (forall v1 v2,
     keep (after (setEpsilon v1) this1) d0 d1
     = keep (after (setEpsilon v2) this1) d0 d1).
Proof.
  intros modes R1 R2 E1 E2 Hmode.
  assert (forall this, reachable M this -> getDepthMode this = mode ->
            exists b, forall this', reachable M this' ->
              getDepthMode this' = mode -> keep this' d0 d1 = Some b) as K.
  { intros _ _ _. destruct Hmode as [U | (c & Hc & ->)].
    - exists (compare Lt d0 d1). intros this' R' E'.
      apply (keep_fallback M); [by apply reachable_consistent |].
      unfold getDepthMode in E'. by rewrite E'.
    - exists (truth_table c d0 d0 d1). intros this' R' E'.
      apply (keep_without_epsilon M modes c); try done.
      by apply reachable_consistent. }
  destruct (K this1 R1 E1) as (b & Hb). split.
  - exists b. split; by apply Hb.
  - intros v1 v2.
    assert (forall v, getDepthMode (after (setEpsilon v) this1) = mode) as G.
    { intros v. unfold after. destruct (is_number v) eqn:N.
      - destruct v; try discriminate. by rewrite setEpsilon_number.
      - by rewrite setEpsilon_other. }
    rewrite !Hb; try done; by apply reachable_setEpsilon.
Qed.

Lemma epsilon_irrelevant_witness :
  enumeration three /\
  reachable three (new three) /\
  getDepthMode (new three) = LessDepth three /\
  keep (after (setEpsilon (Num (JsNumber.of_decimal false 1 (-2)))) (new three))
       (3 # 10)%Q (1 # 2)%Q
  = keep (after (setEpsilon (Num (JsNumber.of_decimal false 5 (-1)))) (new three))
         (3 # 10)%Q (1 # 2)%Q.
Proof.
  split; [| split; [| split]].
  - intros c c'. destruct c, c'; vm_compute; reflexivity.
  - apply reachable_new.
  - reflexivity.
  - apply (epsilon_irrelevant three (LessDepth three) (new three) (new three)
             (3 # 10)%Q (1 # 2)%Q).
    + intros c c'. destruct c, c'; vm_compute; reflexivity.
    + apply reachable_new.
    + apply reachable_new.
    + reflexivity.
    + reflexivity.
    + right. exists Less. split; reflexivity.
Defined.

(** ** The legacy alias [keepFar] *)

Lemma getMaxDepthStrategy_after_set x this :
  getMaxDepthStrategy (after (setMaxDepthStrategy (Num x)) this)
  = Num (JsNumber.StringToNumber (JsNumber.toFixed x 0)).
Proof.
  unfold after. rewrite setMaxDepthStrategy_number.
  unfold getMaxDepthStrategy, get. simpl defines.
  by rewrite lookup_insert_eq.
Qed.

(** C4: [DepthTestStrategy] has no property [KEEP], so the getter compares
    a Number with [undefined]: it answers [false] on every object, also
    right after [keepFar = true], when the strategy held is
    KEEP_MAX_DEPTH. *)
Theorem keepFar_getter_false (this : DepthMaskMaterial) :
  get DepthTestStrategy "KEEP" = Undefined /\
  get_keepFar this = Bool false /\
  (forall v, get_keepFar (after (set_keepFar v) this) = Bool false) /\
  getMaxDepthStrategy (after (set_keepFar (Bool true)) this) = KEEP_MAX_DEPTH /\
  get_keepFar (after (set_keepFar (Bool true)) this) = Bool false.
Proof.
  assert (forall that, get_keepFar that = Bool false) as F by reflexivity.
  repeat split; try apply F.
  unfold after. rewrite set_keepFar_runs. simpl ToBoolean. cbv iota.
  destruct strategy_codes as [-> _].
  fold (after (setMaxDepthStrategy (Num (JsNumber.of_Z 1))) this).
  rewrite getMaxDepthStrategy_after_set. vm_compute. reflexivity.
Qed.

(** C5: [keepFar = b] returns and leaves the strategy KEEP_MAX_DEPTH for
    [true] and DISCARD_MAX_DEPTH for [false]; after [keepFar = false] the
    define holds the text [2] and [getMaxDepthStrategy()] answers the
    Number 2. *)
Theorem set_keepFar_strategy (b : bool) (this : DepthMaskMaterial) :
  answer (set_keepFar (Bool b)) this = Return tt /\
  getMaxDepthStrategy (after (set_keepFar (Bool b)) this)
  = (if b then KEEP_MAX_DEPTH else DISCARD_MAX_DEPTH) /\
  defines (after (set_keepFar (Bool false)) this) !! "DEPTH_TEST_STRATEGY"
  = Some (Str "2") /\
  getMaxDepthStrategy (after (set_keepFar (Bool false)) this)
  = Num (JsNumber.of_Z 2).
Proof.
  assert (forall b', getMaxDepthStrategy (after (set_keepFar (Bool b')) this)
                     = (if b' then KEEP_MAX_DEPTH else DISCARD_MAX_DEPTH)) as G.
  { intros b'. unfold after. rewrite set_keepFar_runs. simpl ToBoolean.
    destruct strategy_codes as [-> ->].
    destruct b';
      match goal with
      | |- getMaxDepthStrategy (snd (setMaxDepthStrategy ?v ?t)) = _ =>
          fold (after (setMaxDepthStrategy v) t)
      end;
      rewrite getMaxDepthStrategy_after_set; vm_compute; reflexivity. }
  repeat split.
  - destruct b; reflexivity.
  - apply G.
  - unfold after. rewrite set_keepFar_runs. simpl ToBoolean. cbv iota.
    destruct strategy_codes as [_ ->].
    rewrite setMaxDepthStrategy_number. cbn [snd with_needsUpdate with_defines defines].
    rewrite lookup_insert_eq. vm_compute. reflexivity.
  - rewrite (G false). apply strategy_codes.
Qed.

(** ** The dirty flag *)

(** C7: every setter call that the documented argument types allow (any
    value as a mode, any Number as tolerance or strategy, anything as
    [keepFar]) returns with [needsUpdate] set, whatever the object held
    before: in particular when the flag was clear and the argument is the
    very value the getter reports. *)
Theorem setters_mark_stale (M : DepthModes) (this : DepthMaskMaterial) :
  (forall mode,
     answer (setDepthMode M mode) this = Return tt /\
     needsUpdate (after (setDepthMode M mode) this) = true) /\
  (forall x,
     answer (setEpsilon (Num x)) this = Return tt /\
     needsUpdate (after (setEpsilon (Num x)) this) = true) /\
  (forall x,
     answer (setMaxDepthStrategy (Num x)) this = Return tt /\
     needsUpdate (after (setMaxDepthStrategy (Num x)) this) = true) /\
  (forall v,
     answer (set_keepFar v) this = Return tt /\
     needsUpdate (after (set_keepFar v) this) = true) /\
  (let clean := with_needsUpdate false this in
   needsUpdate (after (setDepthMode M (getDepthMode clean)) clean) = true /\
   needsUpdate (after (setEpsilon (getEpsilon clean)) clean) = true /\
   needsUpdate (after (setMaxDepthStrategy (getMaxDepthStrategy clean)) clean)
   = true).
Proof.
  assert (forall v,
            answer (set_keepFar v) this = Return tt /\
            needsUpdate (after (set_keepFar v) this) = true) as K.
  { intros v. unfold answer, after. rewrite set_keepFar_runs.
    destruct strategy_codes as [-> ->]. by destruct (ToBoolean v). }
  split; [| split; [| split; [| split]]]; try exact K;
    try (intros; split; reflexivity).
  repeat split.
Qed.

(** ** Failing calls *)

(** C8: a setter call that throws leaves the object exactly as it was, and
    one that returns has written both the define and the flag.  The calls
    that throw are those of [setEpsilon] and [setMaxDepthStrategy] on a
    value without a [toFixed] method; [setDepthMode] never throws. *)
Theorem setters_atomic (M : DepthModes) (v : value) (this : DepthMaskMaterial) :
  match setEpsilon v this with
  | (Throw _, this') => this' = this
  | (Return _, this') =>
      exists x, v = Num x /\
        defines this' !! "DEPTH_EPSILON" = Some (Str (JsNumber.toFixed x 16)) /\
        needsUpdate this' = true
  end /\
  match setMaxDepthStrategy v this with
  | (Throw _, this') => this' = this
  | (Return _, this') =>
      exists x, v = Num x /\
        defines this' !! "DEPTH_TEST_STRATEGY"
        = Some (Str (JsNumber.toFixed x 0)) /\
        needsUpdate this' = true
  end /\
  match setDepthMode M v this with
  | (Throw _, this') => False
  | (Return _, this') =>
      getDepthMode this' = v /\
      defines this' !! "depthTest(d0, d1)" = Some (Str (depthTest_text M v)) /\
      needsUpdate this' = true
  end /\
  setEpsilon Undefined this = (Throw TypeError, this) /\
  setMaxDepthStrategy (Str "1") this = (Throw TypeError, this).
Proof.
  repeat split.
  - destruct (is_number v) eqn:N.
    + destruct v; try discriminate. rewrite setEpsilon_number.
      exists x. simpl. by rewrite lookup_insert_eq.
    + by rewrite setEpsilon_other.
  - destruct (is_number v) eqn:N.
    + destruct v; try discriminate. rewrite setMaxDepthStrategy_number.
      exists x. simpl. by rewrite lookup_insert_eq.
    + by rewrite setMaxDepthStrategy_other.
  - simpl. by rewrite lookup_insert_eq.
Qed.

(** ** Determinism *)

Lemma reachable_test M this :
  reachable M this ->
  defines this !! "depthTest(d0, d1)"
  = Some (Str (depthTest_text M (getDepthMode this))).
Proof.
  intros R. destruct (reachable_consistent M this R) as (e & s & E).
  rewrite E. apply layout_lookup_test.
Qed.

Lemma configure_defines M mode x y this :
  consistent M this ->
  defines (after (setDepthMode M mode ;; setEpsilon (Num x) ;;
                  setMaxDepthStrategy (Num y)) this)
  = layout (depthTest_text M mode) (JsNumber.toFixed x 16)
           (Str (JsNumber.toFixed y 0)).
Proof.
  intros (e & s & E). unfold after, bind.
  rewrite setDepthMode_runs, setEpsilon_number, setMaxDepthStrategy_number.
  simpl. rewrite E, layout_test, layout_epsilon, layout_strategy. reflexivity.
Qed.

(** C10: the comparison text an object holds is a function of its mode
    alone, so two objects with the same mode hold the same text, character
    by character; two objects given the same mode, tolerance and strategy
    hold the same defines altogether; and calling [setDepthMode] again with
    the mode already held, or twice in a row, changes nothing. *)
Theorem predicate_deterministic
    (M : DepthModes) (this1 this2 : DepthMaskMaterial)
    (mode : value) (x y : JsNumber.number) :
  reachable M this1 ->
  reachable M this2 ->
  getDepthMode this1 = getDepthMode this2 ->
  defines this1 !! "depthTest(d0, d1)"
  = Some (Str (depthTest_text M (getDepthMode this1))) /\
  defines this1 !! "depthTest(d0, d1)" = defines this2 !! "depthTest(d0, d1)" /\
  (let configure :=
     setDepthMode M mode ;; setEpsilon (Num x) ;; setMaxDepthStrategy (Num y) in
   answer configure this1 = Return tt /\
   defines (after configure this1) = defines (after configure this2)) /\
  defines (after (setDepthMode M (getDepthMode this1)) this1) = defines this1 /\
  after (setDepthMode M mode) (after (setDepthMode M mode) this1)
  = after (setDepthMode M mode) this1.
Proof.
  intros R1 R2 E.
  pose proof (reachable_consistent M this1 R1) as C1.
  pose proof (reachable_consistent M this2 R2) as C2.
  split; [by apply reachable_test |].
  split; [rewrite !(reachable_test M) by done; by rewrite E |].
  split; [split; [reflexivity | by rewrite !configure_defines] |].
  split.
  - destruct C1 as (e & s & D). unfold after. rewrite setDepthMode_runs.
    simpl defines. rewrite D. apply layout_test.
  - unfold after. rewrite !setDepthMode_runs. simpl.
    unfold with_needsUpdate, with_defines, with_depthMode. simpl.
    by rewrite insert_insert_eq.
Qed.

Lemma predicate_deterministic_witness :
  reachable three (new three) /\
  reachable three (after (setEpsilon (Num (JsNumber.of_Z 1))) (new three)) /\
  getDepthMode (new three)
  = getDepthMode (after (setEpsilon (Num (JsNumber.of_Z 1))) (new three)) /\
  defines (new three) !! "depthTest(d0, d1)"
  = defines (after (setEpsilon (Num (JsNumber.of_Z 1))) (new three))
      !! "depthTest(d0, d1)".
Proof.
  split; [| split; [| split]].
  - apply reachable_new.
  - apply (reachable_call three (SetEpsilon (Num (JsNumber.of_Z 1)))).
    apply reachable_new.
  - reflexivity.
  - apply (predicate_deterministic three (new three)
             (after (setEpsilon (Num (JsNumber.of_Z 1))) (new three))
             (LessDepth three) (JsNumber.of_Z 1) (JsNumber.of_Z 1)).
    + apply reachable_new.
    + apply (reachable_call three (SetEpsilon (Num (JsNumber.of_Z 1)))).
      apply reachable_new.
    + reflexivity.
Defined.

(** ** Decimal texts

    What [toFixed] writes in its fixed notation, [StringToNumber] reads
    back digit for digit. *)

Module NumberFacts.
Import Decimal JsNumber.
Local Open Scope Z_scope.
Local Open Scope string_scope.

Lemma append_cons c s t : String c s +:+ t = String c (s +:+ t).
Proof. reflexivity. Qed.

Lemma append_empty s : s +:+ "" = s.
Proof. induction s as [| c s IH]; [done |]. by rewrite append_cons, IH. Qed.

Lemma append_assoc s t u : (s +:+ t) +:+ u = s +:+ (t +:+ u).
Proof. induction s as [| c s IH]; [done |]. by rewrite !append_cons, IH. Qed.

Lemma length_app s t :
String.length (s +:+ t) = (String.length s + String.length t)%nat.
Proof.
induction s as [| c s IH]; [done |].
rewrite append_cons. cbn [String.length]. by rewrite IH.
Qed.

Lemma digit_val_char d : 0 <= d < 10 -> digit_val (digit_char d) = Some d.
Proof.
intros R.
assert (d = 0 \/ d = 1 \/ d = 2 \/ d = 3 \/ d = 4 \/ d = 5 \/ d = 6 \/ d = 7
        \/ d = 8 \/ d = 9) as C by lia.
repeat (destruct C as [-> | C]; [reflexivity |]). by subst.
Qed.

Lemma all_digits_cons c s :
all_digits (String c s) = true <-> is_digit c = true /\ all_digits s = true.
Proof. cbn [all_digits]. apply andb_true_iff. Qed.

Lemma value_from_digit a c s d :
digit_val c = Some d -> value_from a (String c s) = value_from (10 * a + d) s.
Proof. intros E. cbn [value_from]. by rewrite E. Qed.

Lemma is_digit_val c : is_digit c = true -> exists d, digit_val c = Some d.
Proof. unfold is_digit. destruct (digit_val c) as [d |]; [by exists d | done]. Qed.

Lemma value_from_app a s t :
all_digits s = true -> value_from a (s +:+ t) = value_from (value_from a s) t.
Proof.
revert a. induction s as [| c s IH]; intros a A; [done |].
apply all_digits_cons in A as [A1 A2].
destruct (is_digit_val c A1) as (d & E).
rewrite append_cons, !(value_from_digit _ c _ d E). by apply IH.
Qed.

Lemma all_digits_app s t :
all_digits (s +:+ t) = all_digits s && all_digits t.
Proof.
induction s as [| c s IH]; [done |].
rewrite append_cons. cbn [all_digits]. by rewrite IH, andb_assoc.
Qed.

Lemma digits_aux_spec fuel : forall n acc,
(0 < fuel)%nat ->
0 <= n < 2 ^ Z.of_nat fuel ->
exists ds, digits_aux fuel n acc = ds +:+ acc /\
  all_digits ds = true /\ (0 < String.length ds)%nat /\
  forall a, value_from a ds = a * 10 ^ Z.of_nat (String.length ds) + n.
Proof.
induction fuel as [| fuel IH]; intros n acc F R; [lia |].
cbn [digits_aux].
assert (0 <= n mod 10 < 10) as Rm by (apply Z.mod_pos_bound; lia).
pose proof (digit_val_char (n mod 10) Rm) as Dv.
set (d := digit_char (n mod 10)) in *.
assert (is_digit d = true) as Dd by (unfold is_digit; by rewrite Dv).
destruct (n <? 10)%Z eqn:L.
- apply Z.ltb_lt in L. exists (String d "").
  rewrite Z.mod_small in Dv by lia.
  split; [done |]. split; [apply all_digits_cons; by split |].
  split; [cbn [String.length]; lia |].
  intros a. rewrite (value_from_digit _ d _ n Dv).
  cbn [value_from String.length]. change (Z.of_nat 1) with 1. lia.
- apply Z.ltb_ge in L.
  destruct (IH (n / 10) (String d acc)) as (ds & E & A & P & V).
  { destruct fuel; [change (Z.of_nat 1) with 1 in R; lia | lia]. }
  { split; [apply Z.div_pos; lia |].
    apply Z.div_lt_upper_bound; [lia |].
    rewrite Nat2Z.inj_succ, Z.pow_succ_r in R by lia. lia. }
  exists (ds +:+ String d "").
  split; [by rewrite E, append_assoc |].
  split; [rewrite all_digits_app, A; apply all_digits_cons; by split |].
  split; [rewrite length_app; lia |].
  intros a. rewrite value_from_app, V by done.
  rewrite (value_from_digit _ d _ (n mod 10) Dv). cbn [value_from].
  rewrite length_app. cbn [String.length].
  rewrite Nat2Z.inj_add, Z.pow_add_r by lia. change (Z.of_nat 1) with 1.
  pose proof (Z.div_mod n 10). lia.
Qed.

Lemma digits_spec n :
0 <= n ->
all_digits (digits n) = true /\ (0 < String.length (digits n))%nat /\
forall a, value_from a (digits n) = a * 10 ^ Z.of_nat (String.length (digits n)) + n.
Proof.
intros N. unfold digits.
destruct (digits_aux_spec (S (Z.to_nat (Z.log2 n))) n "") as (ds & E & P).
- lia.
- split; [done |]. rewrite Nat2Z.inj_succ, Z2Nat.id by apply Z.log2_nonneg.
  destruct (Z.eq_dec n 0) as [-> | NZ]; [done |].
  apply Z.log2_spec. lia.
- rewrite E, append_empty. exact P.
Qed.

Lemma zeros_spec k :
all_digits (zeros k) = true /\ String.length (zeros k) = k /\
forall a, value_from a (zeros k) = a * 10 ^ Z.of_nat k.
Proof.
induction k as [| k (A & L & V)].
- repeat split. intros a. cbn [zeros value_from]. change (Z.of_nat 0) with 0. lia.
- cbn [zeros]. split; [apply all_digits_cons; by split |].
  split; [cbn [String.length]; by rewrite L |].
  intros a. rewrite (value_from_digit _ "0"%char _ 0) by reflexivity.
  rewrite V, Nat2Z.inj_succ, Z.pow_succ_r by lia. lia.
Qed.

Lemma take_drop j s : take j s +:+ drop j s = s.
Proof.
revert s. induction j as [| j IH]; intros [| c s]; try done.
cbn [take drop]. by rewrite append_cons, IH.
Qed.

Lemma length_drop j s : String.length (drop j s) = (String.length s - j)%nat.
Proof.
revert s. induction j as [| j IH]; intros [| c s]; try done.
cbn [drop String.length]. rewrite IH. lia.
Qed.

Lemma length_take j s :
(j <= String.length s)%nat -> String.length (take j s) = j.
Proof.
revert s. induction j as [| j IH]; intros [| c s]; cbn [take String.length];
  try done; try lia.
intros L. rewrite IH; lia.
Qed.

Lemma scan_digits ds rest acc cnt :
all_digits ds = true ->
match rest with String c _ => is_digit c = false | EmptyString => True end ->
scan (ds +:+ rest) acc cnt
= (value_from acc ds, (cnt + String.length ds)%nat, rest).
Proof.
revert acc cnt. induction ds as [| c ds IH]; intros acc cnt A R.
- change ("" +:+ rest) with rest. cbn [value_from String.length].
  rewrite Nat.add_0_r. destruct rest as [| c r]; [done |].
  cbn [scan]. unfold is_digit in R. by destruct (digit_val c).
- apply all_digits_cons in A as [A1 A2].
  destruct (is_digit_val c A1) as (d & E).
  rewrite append_cons. cbn [scan]. rewrite E, (value_from_digit _ c _ d E).
  rewrite IH by done. cbn [String.length]. f_equal. f_equal. lia.
Qed.

Lemma fixed_text_split n fd :
0 <= n -> (0 < fd)%nat ->
exists a b, fixed_text n fd = a +:+ "." +:+ b /\
  all_digits a = true /\ all_digits b = true /\
  (0 < String.length a)%nat /\ String.length b = fd /\
  value_from 0 (a +:+ b) = n.
Proof.
intros N F. unfold fixed_text.
set (m := if (n =? 0)%Z then "0" else digits n).
assert (all_digits m = true /\ (0 < String.length m)%nat /\
        value_from 0 m = n) as (Am & Lm & Vm).
{ unfold m. destruct (Z.eqb_spec n 0) as [-> | NZ].
  - repeat split. cbn [String.length]. lia.
  - destruct (digits_spec n N) as (A & L & V). rewrite V. by repeat split. }
destruct fd as [| fd']; [lia |]. set (fd := S fd') in *.
set (k := String.length m) in *.
set (m' := if (k <=? fd)%nat then zeros (fd + 1 - k) +:+ m else m).
set (k' := if (k <=? fd)%nat then (fd + 1)%nat else k).
assert (all_digits m' = true /\ String.length m' = k' /\ (fd < k')%nat /\
        value_from 0 m' = n) as (A' & L' & K' & V').
{ unfold m', k'. destruct (Nat.leb_spec k fd) as [Le | Gt].
  - destruct (zeros_spec (fd + 1 - k)) as (Az & Lz & Vz).
    rewrite all_digits_app, Az, Am, length_app, Lz, value_from_app, Vz by done.
    fold k. repeat split; try done; try lia.
  - by repeat split. }
exists (take (k' - fd) m'), (drop (k' - fd) m').
assert (all_digits (take (k' - fd) m') && all_digits (drop (k' - fd) m') = true)
  as AA by (by rewrite <- all_digits_app, take_drop).
apply andb_true_iff in AA as [At Ad].
repeat split; try done.
- rewrite length_take; lia.
- rewrite length_drop. lia.
- by rewrite take_drop.
Qed.

(** A digit is none of the characters that steer [StringToNumber]. *)
Lemma digit_is_plain c :
is_digit c = true ->
is_ws c = false /\ Ascii.eqb c "+" = false /\ Ascii.eqb c "-" = false /\
Ascii.eqb c "." = false /\ Ascii.eqb "I" c = false /\
Ascii.eqb c "x" = false /\ Ascii.eqb c "X" = false /\
Ascii.eqb c "o" = false /\ Ascii.eqb c "O" = false /\
Ascii.eqb c "b" = false /\ Ascii.eqb c "B" = false.
Proof.
destruct c as [[] [] [] [] [] [] [] []]; vm_compute; intros E;
  try discriminate E; repeat split.
Qed.

Lemma parse_decimal_fixed a b :
all_digits a = true -> all_digits b = true -> (0 < String.length a)%nat ->
parse_decimal (a +:+ "." +:+ b)
= Some (value_from 0 (a +:+ b), - Z.of_nat (String.length b), "").
Proof.
intros A B L. unfold parse_decimal.
rewrite (scan_digits a ("." +:+ b) 0 0) by done.
change ("." +:+ b) with (String "." b). cbv iota beta.
change (Ascii.eqb "." ".") with true. cbv iota.
rewrite <- (append_empty b) at 1.
rewrite (scan_digits b "" (value_from 0 a) 0) by done.
cbv iota beta. rewrite value_from_app by done.
destruct (0 + String.length a + (0 + String.length b))%nat eqn:E; [lia |].
reflexivity.
Qed.

Lemma parse_radix_digits c a b :
is_digit c = true -> all_digits a = true ->
parse_radix (String c (a +:+ "." +:+ b)) = None.
Proof.
intros C A. destruct a as [| c' a].
- change ("" +:+ "." +:+ b) with (String "." b). cbn [parse_radix].
  change (Ascii.eqb "." "x") with false. change (Ascii.eqb "." "X") with false.
  change (Ascii.eqb "." "o") with false. change (Ascii.eqb "." "O") with false.
  change (Ascii.eqb "." "b") with false. change (Ascii.eqb "." "B") with false.
  cbn [orb]. change (0 <? 0)%Z with false. by rewrite andb_false_r.
- apply all_digits_cons in A as [C' A].
  destruct (digit_is_plain c' C') as (_ & _ & _ & _ & _ & X1 & X2 & O1 & O2 & B1 & B2).
  rewrite append_cons. cbn [parse_radix]. rewrite X1, X2, O1, O2, B1, B2.
  cbn [orb]. change (0 <? 0)%Z with false. by rewrite andb_false_r.
Qed.

(** Reading back the fixed notation: the text of [n] with [fd > 0] digits
  after the point denotes [n / 10^fd], with or without a sign. *)
Lemma StringToNumber_fixed (neg : bool) n fd :
0 <= n -> (0 < fd)%nat ->
StringToNumber ((if neg then "-" else "") +:+ fixed_text n fd)
= of_decimal neg n (- Z.of_nat fd).
Proof.
intros N F.
destruct (fixed_text_split n fd N F) as (a & b & -> & A & B & La & Lb & V).
pose proof (parse_decimal_fixed a b A B La) as P. rewrite V, Lb in P.
destruct a as [| c a]; [cbn [String.length] in La; lia |].
apply all_digits_cons in A as [Ac A].
destruct (digit_is_plain c Ac) as (W & Pl & Mi & Dt & In & _).
pose proof (parse_radix_digits c a b Ac A) as R.
change (String c a +:+ "." +:+ b) with (String c (a +:+ "." +:+ b)) in *.
set (t := a +:+ "." +:+ b) in *.
unfold StringToNumber. destruct neg.
- change ("-" +:+ String c t) with (String "-" (String c t)).
  cbn [skip_ws all_ws]. change (is_ws "-") with false. cbn [andb].
  cbv iota.
  change (parse_radix (String "-" (String c t))) with (@None (Z * string)).
  cbv iota. cbn [split_sign]. change (Ascii.eqb "-" "+") with false.
  change (Ascii.eqb "-" "-") with true. cbv iota beta.
  cbn [strip_prefix]. rewrite In. by rewrite P.
- change ("" +:+ String c t) with (String c t).
  cbn [skip_ws all_ws]. rewrite W. cbn [andb skip_ws all_ws]. rewrite W.
  cbn [andb]. cbv iota. rewrite R. cbn [split_sign]. rewrite Pl, Mi.
  cbv iota beta. cbn [strip_prefix]. rewrite In. by rewrite P.
Qed.

Lemma magnitude_pos x : let '(p, q) := magnitude x in 0 <= p /\ 0 < q.
Proof.
destruct x as [s | s | | s m e]; cbn [magnitude]; try lia.
destruct (0 <=? e)%Z eqn:E.
- apply Z.leb_le in E. split; [| lia].
  apply Z.mul_nonneg_nonneg; [lia |]. by apply Z.pow_nonneg.
- apply Z.leb_gt in E. split; [lia |]. apply Z.pow_pos_nonneg; lia.
Qed.

Lemma fixed_point_nonneg x fd : 0 <= fixed_point x fd.
Proof.
unfold fixed_point, round_half_up. pose proof (magnitude_pos x) as P.
destruct (magnitude x) as [p q]. destruct P as [P Q].
apply Z.div_pos; [| lia].
assert (0 <= p * 10 ^ Z.of_nat fd)
  by (apply Z.mul_nonneg_nonneg; [done | apply Z.pow_nonneg; lia]).
lia.
Qed.

Lemma toFixed_in_range x fd :
in_fixed_range x = true ->
toFixed x fd
= (if negative x then "-" else "") +:+ fixed_text (fixed_point x fd) fd.
Proof.
unfold in_fixed_range, toFixed.
destruct x as [s | s | | s m e]; cbn [finite negative andb magnitude];
  try discriminate.
- intros _. unfold fixed_point, round_half_up. cbn [magnitude].
  rewrite Z.mul_0_l. reflexivity.
- change (if (0 <=? e)%Z then (Z.pos m * 2 ^ e, 1) else (Z.pos m, 2 ^ (- e)))
    with (magnitude (S754_finite s m e)).
  destruct (magnitude (S754_finite s m e)) as [p q] eqn:Mg.
  intros L. apply Z.ltb_lt in L.
  destruct (Z.leb_spec (10 ^ 21 * q) p); [lia | done].
Qed.

(** [fixed_point x fd] is zero exactly when [|x| < 10^-fd / 2]. *)
Lemma fixed_point_zero x fd :
let '(p, q) := magnitude x in
fixed_point x fd = 0 <-> 2 * p * 10 ^ Z.of_nat fd < q.
Proof.
unfold fixed_point, round_half_up. pose proof (magnitude_pos x) as P.
destruct (magnitude x) as [p q]. destruct P as [P Q].
assert (0 <= p * 10 ^ Z.of_nat fd)
  by (apply Z.mul_nonneg_nonneg; [done | apply Z.pow_nonneg; lia]).
split.
- intros E. apply Z.div_small_iff in E; lia.
- intros L. apply Z.div_small. lia.
Qed.

End NumberFacts.

(** ** The tolerance *)

Lemma getEpsilon_after_set x this :
  getEpsilon (after (setEpsilon (Num x)) this)
  = Num (JsNumber.StringToNumber (JsNumber.toFixed x 16)).
Proof.
  unfold after. rewrite setEpsilon_number.
  unfold getEpsilon, get. cbn [snd with_needsUpdate with_defines defines].
  by rewrite lookup_insert_eq.
Qed.

Lemma defines_after_setEpsilon x this :
  defines (after (setEpsilon (Num x)) this) !! "DEPTH_EPSILON"
  = Some (Str (JsNumber.toFixed x 16)).
Proof.
  unfold after. rewrite setEpsilon_number.
  cbn [snd with_needsUpdate with_defines defines]. apply lookup_insert_eq.
Qed.

(** C3, as the code has it: for a finite tolerance [0 <= v < 10^21],
    [setEpsilon(v)] stores [v] rounded to sixteen digits after the point
    (half up), and [getEpsilon()] answers the Number nearest to that
    decimal, not [v]: it is zero exactly when [v < 5e-17], so smaller
    positive tolerances are lost. *)
Theorem setEpsilon_getEpsilon (this : DepthMaskMaterial) (x : JsNumber.number) :
  JsNumber.negative x = false ->
  JsNumber.in_fixed_range x = true ->
  let n := JsNumber.fixed_point x 16 in
  let this' := after (setEpsilon (Num x)) this in
  answer (setEpsilon (Num x)) this = Return tt /\
  defines this' !! "DEPTH_EPSILON" = Some (Str (JsNumber.fixed_text n 16)) /\
  getEpsilon this' = Num (JsNumber.nearest false n (10 ^ 16)) /\
  (n = 0%Z <-> (JsNumber.to_Q x < 5 # 100000000000000000)%Q) /\
  (n = 0%Z -> getEpsilon this' = Num (S754_zero false)).
Proof.
  intros Neg Rng n this'.
  assert (JsNumber.toFixed x 16 = JsNumber.fixed_text n 16) as T.
  { rewrite (NumberFacts.toFixed_in_range x 16 Rng), Neg. reflexivity. }
  assert (getEpsilon this' = Num (JsNumber.nearest false n (10 ^ 16))) as G.
  { unfold this'. rewrite getEpsilon_after_set, T.
    assert (JsNumber.StringToNumber (JsNumber.fixed_text n 16)
            = JsNumber.of_decimal false n (- Z.of_nat 16)) as S.
    { apply (NumberFacts.StringToNumber_fixed false n 16);
        [apply NumberFacts.fixed_point_nonneg | lia]. }
    by rewrite S. }
  split; [reflexivity |].
  split; [unfold this'; by rewrite defines_after_setEpsilon, T |].
  split; [exact G |].
  split.
  - pose proof (NumberFacts.fixed_point_zero x 16) as Z.
    pose proof (NumberFacts.magnitude_pos x) as P.
    unfold JsNumber.to_Q. rewrite Neg.
    destruct (JsNumber.magnitude x) as [p q]. destruct P as [P Q].
    fold n in Z. rewrite Z. unfold Qlt. cbn [Qnum Qden].
    rewrite Z2Pos.id by done. change (Z.of_nat 16) with 16%Z. lia.
  - rewrite G. by intros ->.
Qed.

Lemma setEpsilon_getEpsilon_witness :
  JsNumber.negative default_epsilon = false /\
  JsNumber.in_fixed_range default_epsilon = true /\
  getEpsilon (after (setEpsilon (Num default_epsilon)) (new three))
  = Num (JsNumber.nearest false (JsNumber.fixed_point default_epsilon 16) (10 ^ 16)).
Proof.
  split; [| split].
  - reflexivity.
  - vm_compute. reflexivity.
  - apply (setEpsilon_getEpsilon (new three) default_epsilon).
    + reflexivity.
    + vm_compute. reflexivity.
Defined.

(** The default tolerance does come back: [1e-5] is stored as
    [0.0000100000000000], which reads as [1e-5]. *)
Example setEpsilon_default_round_trip :
  defines (after (setEpsilon (Num default_epsilon)) (new three)) !! "DEPTH_EPSILON"
  = Some (Str "0.0000100000000000") /\
  getEpsilon (after (setEpsilon (Num default_epsilon)) (new three))
  = Num default_epsilon /\
  getEpsilon (new three) = Num default_epsilon.
Proof. repeat split; vm_compute; reflexivity. Qed.

(** C3 fails at [1e-17]: a positive tolerance that [setEpsilon] stores as
    [0.0000000000000000] and [getEpsilon] answers as zero. *)
Lemma setEpsilon_tiny_is_lost :
  (0 < JsNumber.to_Q tiny_epsilon)%Q /\
  answer (setEpsilon (Num tiny_epsilon)) (new three) = Return tt /\
  defines (after (setEpsilon (Num tiny_epsilon)) (new three)) !! "DEPTH_EPSILON"
  = Some (Str "0.0000000000000000") /\
  getEpsilon (after (setEpsilon (Num tiny_epsilon)) (new three))
  = Num (S754_zero false) /\
  strict_eq (getEpsilon (after (setEpsilon (Num tiny_epsilon)) (new three)))
            (Num tiny_epsilon) = false.
Proof. repeat split; vm_compute; reflexivity. Qed.

(** C6, as the code has it: [setEpsilon] on a negative Number raises
    nothing.  It returns, sets the flag and stores the text of the value,
    minus sign included; for a finite [v > -10^21] that text is [v] rounded
    to sixteen digits after the point, and [getEpsilon()] answers the
    negative Number nearest to it. *)
Theorem setEpsilon_negative_stored (this : DepthMaskMaterial) (x : JsNumber.number) :
  JsNumber.negative x = true ->
  let n := JsNumber.fixed_point x 16 in
  let this' := after (setEpsilon (Num x)) this in
  answer (setEpsilon (Num x)) this = Return tt /\
  needsUpdate this' = true /\
  defines this' !! "DEPTH_EPSILON" = Some (Str (JsNumber.toFixed x 16)) /\
  (exists t, JsNumber.toFixed x 16 = String "-" t) /\
  (if JsNumber.in_fixed_range x
   then JsNumber.toFixed x 16 = String "-" (JsNumber.fixed_text n 16) /\
        getEpsilon this' = Num (JsNumber.nearest true n (10 ^ 16))
   else True).
Proof.
  intros Neg n this'.
  split; [reflexivity |]. split; [reflexivity |].
  split; [apply defines_after_setEpsilon |].
  split.
  - destruct x as [s | s | | s m e]; cbn [JsNumber.negative] in Neg;
      try discriminate; subst s.
    + by exists "Infinity".
    + unfold JsNumber.toFixed.
      destruct (JsNumber.magnitude (S754_finite true m e)) as [p q].
      eexists. reflexivity.
  - destruct (JsNumber.in_fixed_range x) eqn:Rng; [| done].
    assert (JsNumber.toFixed x 16 = "-" +:+ JsNumber.fixed_text n 16) as T.
    { rewrite (NumberFacts.toFixed_in_range x 16 Rng), Neg. reflexivity. }
    split; [exact T |].
    unfold this'. rewrite getEpsilon_after_set, T.
    assert (JsNumber.StringToNumber ("-" +:+ JsNumber.fixed_text n 16)
            = JsNumber.of_decimal true n (- Z.of_nat 16)) as S.
    { apply (NumberFacts.StringToNumber_fixed true n 16);
        [apply NumberFacts.fixed_point_nonneg | lia]. }
    by rewrite S.
Qed.

Lemma setEpsilon_negative_stored_witness :
  JsNumber.negative negative_epsilon = true /\
  answer (setEpsilon (Num negative_epsilon)) (new three) = Return tt /\
  defines (after (setEpsilon (Num negative_epsilon)) (new three)) !! "DEPTH_EPSILON"
  = Some (Str (JsNumber.toFixed negative_epsilon 16)).
Proof.
  split; [reflexivity |].
  destruct (setEpsilon_negative_stored (new three) negative_epsilon eq_refl)
    as (A & _ & D & _).
  split; [exact A | exact D].
Defined.

(** C6 fails at [-0.001]: the call returns instead of raising, and the
    define holds [-0.0010000000000000]. *)
Lemma setEpsilon_negative_accepted :
  (JsNumber.to_Q negative_epsilon < 0)%Q /\
  setEpsilon (Num negative_epsilon) (new three)
  = (Return tt, after (setEpsilon (Num negative_epsilon)) (new three)) /\
  defines (after (setEpsilon (Num negative_epsilon)) (new three)) !! "DEPTH_EPSILON"
  = Some (Str "-0.0010000000000000") /\
  needsUpdate (after (setEpsilon (Num negative_epsilon)) (new three)) = true.
Proof.
  split; [vm_compute; reflexivity |].
  split; [reflexivity |].
  split; [vm_compute; reflexivity |].
  reflexivity.
Qed.

(** ** Rounding to the nearest Number

    Two facts about [JsNumber.nearest], read off the division of the
    Standard Library's [SpecFloat]: a fraction of at least [2^-54] does
    not round to zero, and a fraction that is a Number of 53 significant
    bits rounds to itself. *)

Module RoundingFacts.
Import JsNumber.
Local Open Scope Z_scope.

Lemma digits2_pos_size p : digits2_pos p = Pos.size p.
Proof. induction p as [p IH | p IH |]; cbn [digits2_pos Pos.size]; by rewrite ?IH. Qed.

Lemma Zdigits2_bounds p :
  2 ^ (Zdigits2 (Zpos p) - 1) <= Zpos p < 2 ^ Zdigits2 (Zpos p).
Proof.
  cbn [Zdigits2]. rewrite digits2_pos_size.
  pose proof (Pos.size_gt p) as G. pose proof (Pos.size_le p) as L.
  assert (Zpos (2 ^ Pos.size p) = 2 ^ Zpos (Pos.size p)) as E
    by (by rewrite Pos2Z.inj_pow).
  split.
  - assert (2 ^ Zpos (Pos.size p) <= 2 * Zpos p) as L' by (rewrite <- E; lia).
    replace (Zpos (Pos.size p)) with (Z.succ (Zpos (Pos.size p) - 1)) in L' by lia.
    rewrite Z.pow_succ_r in L' by lia. lia.
  - rewrite <- E. lia.
Qed.

(** The number of binary digits is determined by the bounds. *)
Lemma Zdigits2_unique m d :
  0 < d -> 2 ^ (d - 1) <= m < 2 ^ d -> Zdigits2 m = d.
Proof.
  intros D [L U]. destruct m as [| p | p];
    [assert (0 < 2 ^ (d - 1)) by (apply Z.pow_pos_nonneg; lia); lia | |
     assert (0 < 2 ^ (d - 1)) by (apply Z.pow_pos_nonneg; lia); lia].
  pose proof (Zdigits2_bounds p) as [L' U'].
  set (d' := Zdigits2 (Zpos p)) in *.
  assert (0 < d') by (unfold d'; cbn [Zdigits2]; lia).
  destruct (Z.lt_trichotomy d' d) as [Lt | [Eq | Gt]]; [| done |].
  - assert (2 ^ d' <= 2 ^ (d - 1)) by (apply Z.pow_le_mono_r; lia). lia.
  - assert (2 ^ d <= 2 ^ (d' - 1)) by (apply Z.pow_le_mono_r; lia). lia.
Qed.

Lemma shr_1_m mrs : 0 <= shr_m mrs -> shr_m (shr_1 mrs) = shr_m mrs / 2.
Proof.
  destruct mrs as [m r s]. cbn [shr_m]. intros N.
  destruct m as [| [p | p |] | p]; cbn [shr_1 shr_m]; try done; try lia.
  - apply Z.div_unique with (r := 1); lia.
  - apply Z.div_unique with (r := 0); lia.
Qed.

Lemma div_pow2 m a b : 0 <= a -> 0 <= b -> m / 2 ^ a / 2 ^ b = m / 2 ^ (a + b).
Proof.
  intros A B. rewrite Z.pow_add_r by done.
  apply Z.div_div; [apply Z.pow_nonzero; lia | apply Z.pow_pos_nonneg; lia].
Qed.

Lemma shr_1_nonneg mrs : 0 <= shr_m mrs -> 0 <= shr_m (shr_1 mrs).
Proof. intros N. rewrite shr_1_m by done. apply Z.div_pos; lia. Qed.

Lemma iter_shr_1_m p : forall mrs,
  0 <= shr_m mrs ->
  shr_m (SpecFloat.iter_pos shr_1 p mrs) = shr_m mrs / 2 ^ Zpos p.
Proof.
  induction p as [p IH | p IH |]; intros mrs N; cbn [SpecFloat.iter_pos].
  - assert (0 <= shr_m (shr_1 mrs)) as N1 by by apply shr_1_nonneg.
    assert (0 <= shr_m (SpecFloat.iter_pos shr_1 p (shr_1 mrs))) as N2
      by (rewrite IH by done; apply Z.div_pos; [done | apply Z.pow_pos_nonneg; lia]).
    rewrite IH, IH, shr_1_m by done.
    change (shr_m mrs / 2) with (shr_m mrs / 2 ^ 1).
    rewrite !div_pow2 by lia. f_equal. f_equal. lia.
  - assert (0 <= shr_m (SpecFloat.iter_pos shr_1 p mrs)) as N2
      by (rewrite IH by done; apply Z.div_pos; [done | apply Z.pow_pos_nonneg; lia]).
    rewrite IH, IH by done.
    rewrite !div_pow2 by lia. f_equal. f_equal. lia.
  - by apply shr_1_m.
Qed.

Lemma Zdigits2_lower m d : 2 ^ d <= m -> 0 <= d -> d < Zdigits2 m.
Proof.
  intros L D. destruct m as [| p | p];
    try (assert (0 < 2 ^ d) by (apply Z.pow_pos_nonneg; lia); lia).
  pose proof (Zdigits2_bounds p) as [_ U].
  destruct (Z.lt_ge_cases d (Zdigits2 (Zpos p))) as [| G]; [done |].
  assert (2 ^ Zdigits2 (Zpos p) <= 2 ^ d) by (apply Z.pow_le_mono_r; lia). lia.
Qed.

Lemma shr_m_of_loc m l : shr_m (shr_record_of_loc m l) = m.
Proof. by destruct l as [| []]. Qed.

(** In the normal range [shr_fexp] keeps the 53 leading bits. *)
Lemma shr_fexp_normal m e l :
  2 ^ 52 <= m -> -1074 <= e ->
  2 ^ 52 <= shr_m (fst (shr_fexp prec emax m e l)) < 2 ^ 53 /\
  e <= snd (shr_fexp prec emax m e l).
Proof.
  intros M E.
  assert (52 < Zdigits2 m) as D by (apply Zdigits2_lower; lia).
  destruct m as [| p | p]; try lia.
  pose proof (Zdigits2_bounds p) as [L U].
  set (d := Zdigits2 (Zpos p)) in *.
  unfold shr_fexp. fold d.
  assert (fexp prec emax (d + e) - e = d - 53) as F
    by (unfold fexp, emin, prec, emax; lia).
  rewrite F. unfold shr.
  destruct (d - 53) as [| k | k] eqn:K; try lia.
  - cbn [fst snd]. rewrite shr_m_of_loc.
    assert (d = 53) as -> by lia. change (53 - 1) with 52 in L. lia.
  - cbn [fst snd]. rewrite iter_shr_1_m by (rewrite shr_m_of_loc; lia).
    rewrite shr_m_of_loc. rewrite <- K.
    assert (0 < 2 ^ (d - 53)) as P2 by (apply Z.pow_pos_nonneg; lia).
    assert (2 ^ (d - 1) = 2 ^ 52 * 2 ^ (d - 53)) as E1
      by (rewrite <- Z.pow_add_r by lia; f_equal; lia).
    assert (2 ^ d = 2 ^ 53 * 2 ^ (d - 53)) as E2
      by (rewrite <- Z.pow_add_r by lia; f_equal; lia).
    split; [split |]; try lia.
    + apply Z.div_le_lower_bound; lia.
    + apply Z.div_lt_upper_bound; lia.
Qed.

Lemma round_nearest_even_bounds m l :
  m <= round_nearest_even m l <= m + 1.
Proof. destruct l as [| []]; cbn [round_nearest_even]; try lia. destruct (Z.even m); lia. Qed.

(** A mantissa of at least 53 bits never rounds to zero. *)
Lemma binary_round_aux_nonzero sx mx ex lx s' :
  2 ^ 52 <= mx -> -1074 <= ex ->
  binary_round_aux prec emax sx mx ex lx <> S754_zero s'.
Proof.
  intros M E. unfold binary_round_aux.
  pose proof (shr_fexp_normal mx ex lx M E) as (B1 & E1).
  destruct (shr_fexp prec emax mx ex lx) as [mrs1 e1]. cbn [fst snd] in B1, E1.
  pose proof (round_nearest_even_bounds (shr_m mrs1) (loc_of_shr_record mrs1)) as R.
  set (m1 := round_nearest_even (shr_m mrs1) (loc_of_shr_record mrs1)) in *.
  pose proof (shr_fexp_normal m1 e1 loc_Exact) as (B2 & E2); try lia.
  destruct (shr_fexp prec emax m1 e1 loc_Exact) as [mrs2 e2]. cbn [fst snd] in B2, E2.
  destruct (shr_m mrs2) as [| m2 | m2]; try lia.
  by destruct (e2 <=? emax - prec).
Qed.

(** The nearest Number to a positive fraction with a denominator below
    [2^54] is not zero: such a fraction is at least [2^-54]. *)
Lemma nearest_nonzero neg p q s' :
  0 < p -> 0 < q < 2 ^ 54 -> nearest neg p q <> S754_zero s'.
Proof.
  intros P Q. destruct p as [| p | p]; try lia. destruct q as [| q | q]; try lia.
  unfold nearest, SFdiv, SFdiv_core_binary.
  pose proof (Zdigits2_bounds p) as [L1 U1].
  pose proof (Zdigits2_bounds q) as [L2 U2].
  set (d1 := Zdigits2 (Zpos p)) in *. set (d2 := Zdigits2 (Zpos q)) in *.
  assert (0 < d1) by (unfold d1; cbn [Zdigits2]; lia).
  assert (0 < d2) by (unfold d2; cbn [Zdigits2]; lia).
  assert (d2 <= 54) as D2.
  { destruct (Z.le_gt_cases d2 54) as [| G]; [done |].
    assert (2 ^ 54 <= 2 ^ (d2 - 1)) by (apply Z.pow_le_mono_r; lia). lia. }
  rewrite !Z.add_0_r, !Z.sub_0_r.
  assert (fexp prec emax (d1 - d2) = d1 - d2 - 53) as F
    by (unfold fexp, emin, prec, emax; lia).
  rewrite F. set (e' := Z.min (d1 - d2 - 53) 0).
  set (m' := match 0 - e' with
             | Zpos _ => Z.shiftl (Zpos p) (0 - e')
             | Z0 => Zpos p
             | Zneg _ => 0
             end).
  assert (m' = Zpos p * 2 ^ (- e')) as M'.
  { unfold m'. destruct (0 - e') as [| k | k] eqn:K; try lia.
    - replace (- e') with 0 by lia. lia.
    - rewrite Z.shiftl_mul_pow2 by lia. f_equal. f_equal. lia. }
  assert (2 ^ 52 * Zpos q <= m') as Big.
  { rewrite M'. assert (2 ^ 52 * Zpos q <= 2 ^ 52 * 2 ^ d2) as B1 by lia.
    rewrite <- Z.pow_add_r in B1 by lia.
    assert (2 ^ (52 + d2) <= 2 ^ (d1 - 1) * 2 ^ (- e')) as B2.
    { rewrite <- Z.pow_add_r by lia. apply Z.pow_le_mono_r; lia. }
    assert (0 < 2 ^ (- e')) by (apply Z.pow_pos_nonneg; lia).
    nia. }
  pose proof (Z.div_le_lower_bound m' (Zpos q) (2 ^ 52)) as Dv.
  unfold Z.div in Dv. destruct (Z.div_eucl m' (Zpos q)) as [qt r].
  cbn [fst] in Dv. apply binary_round_aux_nonzero; [apply Dv |]; lia.
Qed.

(** Shifting out zero bits loses nothing. *)
Lemma shr_1_exact m :
  0 <= m ->
  shr_1 (Build_shr_record (2 * m) false false) = Build_shr_record m false false.
Proof. intros M. by destruct m as [| p | p]; [| | lia]. Qed.

Lemma pow2_xO k : 2 ^ Zpos k~0 = 2 ^ Zpos k * 2 ^ Zpos k.
Proof.
  replace (Zpos k~0) with (Zpos k + Zpos k) by lia. apply Z.pow_add_r; lia.
Qed.

Lemma pow2_xI k : 2 ^ Zpos k~1 = 2 * (2 ^ Zpos k * 2 ^ Zpos k).
Proof.
  replace (Zpos k~1) with (Z.succ (Zpos k + Zpos k)) by lia.
  rewrite Z.pow_succ_r, Z.pow_add_r by lia. reflexivity.
Qed.

Lemma iter_shr_1_exact k : forall m,
  0 <= m ->
  SpecFloat.iter_pos shr_1 k (Build_shr_record (m * 2 ^ Zpos k) false false)
  = Build_shr_record m false false.
Proof.
  induction k as [k IH | k IH |]; intros m M; cbn [SpecFloat.iter_pos].
  - assert (0 <= 2 ^ Zpos k) by (apply Z.pow_nonneg; lia).
    replace (m * 2 ^ Zpos k~1) with (2 * ((m * 2 ^ Zpos k) * 2 ^ Zpos k))
      by (rewrite pow2_xI; lia).
    rewrite shr_1_exact, IH, IH by nia. reflexivity.
  - assert (0 <= 2 ^ Zpos k) by (apply Z.pow_nonneg; lia).
    replace (m * 2 ^ Zpos k~0) with ((m * 2 ^ Zpos k) * 2 ^ Zpos k)
      by (rewrite pow2_xO; lia).
    rewrite IH, IH by nia. reflexivity.
  - rewrite Z.pow_1_r, Z.mul_comm. by apply shr_1_exact.
Qed.

Lemma shr_fexp_exact m j e' :
  Zdigits2 (Zpos m) = 53 -> 0 <= j -> -1074 <= e' + j ->
  shr_fexp prec emax (Zpos m * 2 ^ j) e' loc_Exact
  = (Build_shr_record (Zpos m) false false, e' + j).
Proof.
  intros D J E.
  pose proof (Zdigits2_bounds m) as [L U]. rewrite D in L, U.
  change (53 - 1) with 52 in L.
  assert (0 < 2 ^ j) as P2 by (apply Z.pow_pos_nonneg; lia).
  assert (Zdigits2 (Zpos m * 2 ^ j) = 53 + j) as Dq.
  { apply Zdigits2_unique; [lia |].
    replace (53 + j - 1) with (52 + j) by lia.
    rewrite !Z.pow_add_r by lia. nia. }
  unfold shr_fexp. rewrite Dq.
  assert (fexp prec emax (53 + j + e') - e' = j) as F
    by (unfold fexp, emin, prec, emax; lia).
  rewrite F. unfold shr. cbn [shr_record_of_loc].
  destruct j as [| k | k]; try lia.
  - by rewrite Z.pow_0_r, Z.mul_1_r, Z.add_0_r.
  - by rewrite iter_shr_1_exact by lia.
Qed.

Lemma binary_round_aux_exact sx m j e' :
  Zdigits2 (Zpos m) = 53 -> 0 <= j -> -1074 <= e' + j <= emax - prec ->
  binary_round_aux prec emax sx (Zpos m * 2 ^ j) e' loc_Exact
  = S754_finite sx m (e' + j).
Proof.
  intros D J E. unfold binary_round_aux.
  rewrite shr_fexp_exact by (try done; lia).
  cbn [shr_m loc_of_shr_record round_nearest_even].
  pose proof (shr_fexp_exact m 0 (e' + j) D) as S0.
  rewrite Z.pow_0_r, Z.mul_1_r, Z.add_0_r in S0. rewrite S0 by lia.
  cbn [shr_m]. destruct (Z.leb_spec (e' + j) (emax - prec)); [done | lia].
Qed.

(** A fraction that is a Number of 53 significant bits is its own nearest
    Number: [n / q = m * 2^e] exactly, stated without division as
    [n * q' = p' * q] for the magnitude [p' / q'] of the Number. *)
Lemma nearest_exact neg m e n q :
  Zdigits2 (Zpos m) = 53 -> -1074 <= e <= emax - prec ->
  0 < n -> 0 < q < 2 ^ 54 ->
  (let '(p', q') := magnitude (S754_finite neg m e) in n * q' = p' * q) ->
  nearest neg n q = S754_finite neg m e.
Proof.
  intros D E N Q X. destruct n as [| n | n]; try lia.
  destruct q as [| q | q]; try lia.
  pose proof (Zdigits2_bounds m) as [Lm Um]. rewrite D in Lm, Um.
  change (53 - 1) with 52 in Lm.
  pose proof (Zdigits2_bounds n) as [L1 U1].
  pose proof (Zdigits2_bounds q) as [L2 U2].
  unfold nearest, SFdiv, SFdiv_core_binary.
  set (d1 := Zdigits2 (Zpos n)) in *. set (d2 := Zdigits2 (Zpos q)) in *.
  assert (0 < d1) by (unfold d1; cbn [Zdigits2]; lia).
  assert (0 < d2) by (unfold d2; cbn [Zdigits2]; lia).
  assert (d2 <= 54) as D2.
  { destruct (Z.le_gt_cases d2 54) as [| G]; [done |].
    assert (2 ^ 54 <= 2 ^ (d2 - 1)) by (apply Z.pow_le_mono_r; lia). lia. }
  rewrite !Z.add_0_r, !Z.sub_0_r.
  assert (fexp prec emax (d1 - d2) = d1 - d2 - 53) as F
    by (unfold fexp, emin, prec, emax; lia).
  rewrite F. set (e' := Z.min (d1 - d2 - 53) 0).
  (* the quotient is below 2^(53+e), so e' <= e *)
  assert (e' <= e) as Le.
  { unfold e'. destruct (Z.le_gt_cases 0 e) as [| Neg]; [lia |].
    cbn [magnitude] in X. destruct (Z.leb_spec 0 e); [lia |].
    destruct (Z.le_gt_cases (d1 - d2 - 53) e) as [| G]; [lia |].
    exfalso.
    assert (0 < 2 ^ (- e)) by (apply Z.pow_pos_nonneg; lia).
    assert (2 ^ (d1 - 1) * 2 ^ (- e) <= Zpos n * 2 ^ (- e)) as B1 by nia.
    assert (Zpos m * Zpos q < 2 ^ 53 * 2 ^ d2) as B2 by nia.
    rewrite <- Z.pow_add_r in B1, B2 by lia.
    assert (2 ^ (53 + d2) <= 2 ^ (d1 - 1 + - e)) by (apply Z.pow_le_mono_r; lia).
    lia. }
  set (m' := match 0 - e' with
             | Zpos _ => Z.shiftl (Zpos n) (0 - e')
             | Z0 => Zpos n
             | Zneg _ => 0
             end).
  assert (m' = Zpos n * 2 ^ (- e')) as M'.
  { unfold m'. destruct (0 - e') as [| k | k] eqn:K; try lia.
    - replace (- e') with 0 by lia. lia.
    - rewrite Z.shiftl_mul_pow2 by lia. f_equal. f_equal. lia. }
  assert (m' = Zpos q * (Zpos m * 2 ^ (e - e'))) as Q'.
  { rewrite M'. cbn [magnitude] in X.
    assert (0 < 2 ^ (- e')) by (apply Z.pow_pos_nonneg; lia).
    destruct (Z.leb_spec 0 e).
    - replace (e - e') with (e + - e') by lia. rewrite Z.pow_add_r by lia. nia.
    - assert (2 ^ (- e') = 2 ^ (- e) * 2 ^ (e - e')) as Sp
        by (rewrite <- Z.pow_add_r by lia; f_equal; lia).
      rewrite Sp. nia. }
  assert (Z.div_eucl m' (Zpos q) = (Zpos m * 2 ^ (e - e'), 0)) as Dv.
  { pose proof (Z.div_eucl_eq m' (Zpos q)) as Eq.
    pose proof (Z.mod_pos_bound m' (Zpos q)) as Bd.
    unfold Z.modulo in Bd. destruct (Z.div_eucl m' (Zpos q)) as [qt r].
    specialize (Eq ltac:(lia)). specialize (Bd ltac:(lia)).
    assert (qt = Zpos m * 2 ^ (e - e')) by nia. subst qt.
    f_equal. lia. }
  rewrite Dv.
  assert (new_location (Zpos q) 0 = loc_Exact) as ->
    by (unfold new_location; by destruct (Z.even (Zpos q))).
  cbn [xorb]. rewrite binary_round_aux_exact by (try done; lia).
  f_equal; [by destruct neg | lia].
Qed.

End RoundingFacts.

(** * Further properties of the class *)

(** ** The constructor *)

Lemma new_defines M :
  defines (new M)
  = layout (depthTest_text M (LessDepth M)) "0.00001" KEEP_MAX_DEPTH.
Proof.
  change (defines (new M))
    with (<["depthTest(d0, d1)" := Str (depthTest_text M (LessDepth M))]>
            (defines super)).
  by rewrite super_defines.
Qed.

(** X1: a new material has the defaults its documentation gives: the mode
    is [LessDepth], so a texel is kept when [d0 > d1]; the tolerance reads
    as [1e-5]; the strategy is KEEP_MAX_DEPTH; the object is marked for
    update and not tone mapped. *)
Theorem new_defaults
    (M : DepthModes) {D : Type} `{DepthNum D} (d0 d1 : D) :
  enumeration M ->
  getDepthMode (new M) = LessDepth M /\
  getEpsilon (new M) = Num default_epsilon /\
  getMaxDepthStrategy (new M) = KEEP_MAX_DEPTH /\
  needsUpdate (new M) = true /\
  toneMapped (new M) = false /\
  keep (new M) d0 d1 = Some (compare Gt d0 d1).
Proof.
  intros modes.
  split; [reflexivity |].
  split; [unfold getEpsilon, get; rewrite new_defines, layout_lookup_epsilon;
          vm_compute; reflexivity |].
  split; [unfold getMaxDepthStrategy, get;
          rewrite new_defines, layout_lookup_strategy; vm_compute; reflexivity |].
  split; [reflexivity |]. split; [reflexivity |].
  apply (keep_without_epsilon M modes Less (new M) d0 d0 d1);
    [apply new_consistent | reflexivity | reflexivity].
Qed.

Lemma new_defaults_witness :
  enumeration three /\
  keep (new three) (3 # 10)%Q (1 # 2)%Q = Some (compare Gt (3 # 10)%Q (1 # 2)%Q).
Proof.
  split; [intros c c'; destruct c, c'; vm_compute; reflexivity |].
  destruct (new_defaults three (3 # 10)%Q (1 # 2)%Q) as (_ & _ & _ & _ & _ & K).
  - intros c c'. destruct c, c'; vm_compute; reflexivity.
  - exact K.
Defined.

(** ** How the setters compose *)

Lemma after_setEpsilon_number x this :
  after (setEpsilon (Num x)) this
  = with_needsUpdate true
      (with_defines
         (<["DEPTH_EPSILON" := Str (JsNumber.toFixed x 16)]> (defines this)) this).
Proof. unfold after. by rewrite setEpsilon_number. Qed.

Lemma after_setMaxDepthStrategy_number x this :
  after (setMaxDepthStrategy (Num x)) this
  = with_needsUpdate true
      (with_defines
         (<["DEPTH_TEST_STRATEGY" := Str (JsNumber.toFixed x 0)]> (defines this))
         this).
Proof. unfold after. by rewrite setMaxDepthStrategy_number. Qed.

Lemma after_setEpsilon_other v this :
  is_number v = false -> after (setEpsilon v) this = this.
Proof. intros N. unfold after. by rewrite setEpsilon_other. Qed.

Lemma after_setMaxDepthStrategy_other v this :
  is_number v = false -> after (setMaxDepthStrategy v) this = this.
Proof. intros N. unfold after. by rewrite setMaxDepthStrategy_other. Qed.

Lemma after_setDepthMode M mode this :
  after (setDepthMode M mode) this
  = with_needsUpdate true
      (with_defines
         (<["depthTest(d0, d1)" := Str (depthTest_text M mode)]> (defines this))
         (with_depthMode mode this)).
Proof. reflexivity. Qed.

Ltac setter_cases v :=
  destruct (is_number v) eqn:?;
  [destruct v; try discriminate;
   rewrite ?after_setEpsilon_number, ?after_setMaxDepthStrategy_number
  | rewrite ?after_setEpsilon_other, ?after_setMaxDepthStrategy_other by done].

(** X2: each setter leaves what the other two set alone: [setEpsilon]
    changes no define but [DEPTH_EPSILON] and not the mode, and likewise
    for [setMaxDepthStrategy] and [setDepthMode], whatever the argument
    and whether the call returns or throws. *)
Theorem setters_independent
    (M : DepthModes) (v : value) (k : string) (this : DepthMaskMaterial) :
  (getDepthMode (after (setEpsilon v) this) = getDepthMode this /\
   getMaxDepthStrategy (after (setEpsilon v) this) = getMaxDepthStrategy this /\
   (k <> "DEPTH_EPSILON" ->
    defines (after (setEpsilon v) this) !! k = defines this !! k)) /\
  (getDepthMode (after (setMaxDepthStrategy v) this) = getDepthMode this /\
   getEpsilon (after (setMaxDepthStrategy v) this) = getEpsilon this /\
   (k <> "DEPTH_TEST_STRATEGY" ->
    defines (after (setMaxDepthStrategy v) this) !! k = defines this !! k)) /\
  (getEpsilon (after (setDepthMode M v) this) = getEpsilon this /\
   getMaxDepthStrategy (after (setDepthMode M v) this)
   = getMaxDepthStrategy this /\
   (k <> "depthTest(d0, d1)" ->
    defines (after (setDepthMode M v) this) !! k = defines this !! k)).
Proof.
  split; [| split].
  - setter_cases v; try done.
    unfold getMaxDepthStrategy, get.
    cbn [with_needsUpdate with_defines defines getDepthMode depthMode].
    rewrite lookup_insert_ne by done.
    repeat split. intros Hk. by rewrite lookup_insert_ne.
  - setter_cases v; try done.
    unfold getEpsilon, get.
    cbn [with_needsUpdate with_defines defines getDepthMode depthMode].
    rewrite lookup_insert_ne by done.
    repeat split. intros Hk. by rewrite lookup_insert_ne.
  - rewrite after_setDepthMode. unfold getEpsilon, getMaxDepthStrategy, get.
    cbn [with_needsUpdate with_defines with_depthMode defines].
    rewrite !lookup_insert_ne by done.
    repeat split. intros Hk. by rewrite lookup_insert_ne.
Qed.

Lemma setters_independent_witness :
  "DEPTH_PACKING_0" <> "DEPTH_EPSILON" /\
  defines (after (setEpsilon (Num default_epsilon)) (new three)) !! "DEPTH_PACKING_0"
  = defines (new three) !! "DEPTH_PACKING_0".
Proof.
  split; [discriminate |].
  destruct (setters_independent three (Num default_epsilon) "DEPTH_PACKING_0"
              (new three)) as ((_ & _ & E) & _).
  apply E. discriminate.
Defined.

(** X3: the three setters commute: whatever the arguments, the object
    left by two calls does not depend on their order. *)
Theorem setters_commute
    (M : DepthModes) (mode e s : value) (this : DepthMaskMaterial) :
  after (setEpsilon e) (after (setDepthMode M mode) this)
  = after (setDepthMode M mode) (after (setEpsilon e) this) /\
  after (setMaxDepthStrategy s) (after (setDepthMode M mode) this)
  = after (setDepthMode M mode) (after (setMaxDepthStrategy s) this) /\
  after (setMaxDepthStrategy s) (after (setEpsilon e) this)
  = after (setEpsilon e) (after (setMaxDepthStrategy s) this).
Proof.
  split; [| split].
  - setter_cases e; [| done]. rewrite !after_setDepthMode.
    unfold with_needsUpdate, with_defines, with_depthMode.
    cbn [name defines depthWrite depthTest toneMapped depthMode needsUpdate].
    by rewrite (insert_insert_ne _ "DEPTH_EPSILON" "depthTest(d0, d1)").
  - setter_cases s; [| done]. rewrite !after_setDepthMode.
    unfold with_needsUpdate, with_defines, with_depthMode.
    cbn [name defines depthWrite depthTest toneMapped depthMode needsUpdate].
    by rewrite (insert_insert_ne _ "DEPTH_TEST_STRATEGY" "depthTest(d0, d1)").
  - setter_cases e; setter_cases s; try done.
    unfold with_needsUpdate, with_defines.
    cbn [name defines depthWrite depthTest toneMapped depthMode needsUpdate].
    by rewrite (insert_insert_ne _ "DEPTH_TEST_STRATEGY" "DEPTH_EPSILON").
Qed.

(** X4: the last call wins: a setter called twice leaves the object its
    second call alone would leave, for Number tolerances and strategies and
    for any mode; the earlier value leaves no trace. *)
Theorem last_call_wins
    (M : DepthModes) (mode mode' : value) (x x' : JsNumber.number)
    (this : DepthMaskMaterial) :
  after (setDepthMode M mode') (after (setDepthMode M mode) this)
  = after (setDepthMode M mode') this /\
  after (setEpsilon (Num x')) (after (setEpsilon (Num x)) this)
  = after (setEpsilon (Num x')) this /\
  after (setMaxDepthStrategy (Num x')) (after (setMaxDepthStrategy (Num x)) this)
  = after (setMaxDepthStrategy (Num x')) this.
Proof.
  rewrite !after_setDepthMode, !after_setEpsilon_number,
    !after_setMaxDepthStrategy_number.
  unfold with_needsUpdate, with_defines, with_depthMode.
  cbn [name defines depthWrite depthTest toneMapped depthMode needsUpdate].
  by rewrite !insert_insert_eq.
Qed.

(** ** The legacy alias, for any value *)

(** X5: [keepFar = v] goes by the truthiness of [v]: a truthy value (also
    the string [false], or any number but zero and NaN) selects
    KEEP_MAX_DEPTH and a falsy one ([undefined], [null], zero, NaN, the
    empty string) selects DISCARD_MAX_DEPTH; the alias never selects
    DEFAULT and never throws. *)
Theorem set_keepFar_truthiness (v : value) (this : DepthMaskMaterial) :
  answer (set_keepFar v) this = Return tt /\
  getMaxDepthStrategy (after (set_keepFar v) this)
  = (if ToBoolean v then KEEP_MAX_DEPTH else DISCARD_MAX_DEPTH) /\
  strict_eq (getMaxDepthStrategy (after (set_keepFar v) this))
            (get DepthTestStrategy "DEFAULT") = false /\
  getMaxDepthStrategy (after (set_keepFar (Str "false")) this) = KEEP_MAX_DEPTH /\
  getMaxDepthStrategy (after (set_keepFar (Num JsNumber.NaN)) this)
  = DISCARD_MAX_DEPTH.
Proof.
  assert (forall b : bool,
            getMaxDepthStrategy
              (after (setMaxDepthStrategy
                        (if b then KEEP_MAX_DEPTH else DISCARD_MAX_DEPTH)) this)
            = (if b then KEEP_MAX_DEPTH else DISCARD_MAX_DEPTH)) as G.
  { intros b. destruct strategy_codes as [-> ->].
    destruct b; rewrite getMaxDepthStrategy_after_set; vm_compute; reflexivity. }
  assert (forall w, after (set_keepFar w) this
                    = after (setMaxDepthStrategy
                               (if ToBoolean w then KEEP_MAX_DEPTH
                                else DISCARD_MAX_DEPTH)) this) as A
    by (intros w; unfold after; by rewrite set_keepFar_runs).
  split; [| split; [| split; [| split]]].
  - unfold answer. rewrite set_keepFar_runs.
    destruct strategy_codes as [-> ->]. by destruct (ToBoolean v).
  - by rewrite A, G.
  - rewrite A, G. destruct strategy_codes as [-> ->].
    destruct (ToBoolean v); vm_compute; reflexivity.
  - rewrite A. apply (G true).
  - rewrite A. apply (G false).
Qed.

(** ** What every object keeps *)

Lemma depthTest_text_listed M mode : In (depthTest_text M mode) comparison_texts.
Proof.
  unfold depthTest_text, comparison_texts.
  repeat match goal with
         | |- context [if ?b then _ else _] => destruct b
         end; cbn [In]; tauto.
Qed.

Lemma layout_dom t e s : dom (layout t e s) = define_keys.
Proof.
  unfold layout, packing, define_keys.
  rewrite !dom_insert_L, dom_singleton_L. set_solver.
Qed.

Lemma perform_fields M c this :
  needsUpdate this = true ->
  needsUpdate (after (perform M c) this) = true /\
  toneMapped (after (perform M c) this) = toneMapped this /\
  depthWrite (after (perform M c) this) = depthWrite this /\
  depthTest (after (perform M c) this) = depthTest this /\
  name (after (perform M c) this) = name this.
Proof.
  intros N. destruct c as [mode | v | v | v]; cbn [perform].
  - by rewrite after_setDepthMode.
  - by setter_cases v.
  - by setter_cases v.
  - unfold after. rewrite set_keepFar_runs.
    destruct strategy_codes as [-> ->]. by destruct (ToBoolean v).
Qed.

Lemma reachable_fields M this :
  reachable M this ->
  needsUpdate this = true /\ toneMapped this = false /\
  depthWrite this = false /\ depthTest this = false /\
  name this = "DepthMaskMaterial".
Proof.
  induction 1 as [| c this R (N & T & W & DT & Nm)]; [done |].
  destruct (perform_fields M c this N) as (N' & -> & -> & -> & ->). done.
Qed.

(** X6: on every object a program can hold, whatever setters were called
    and whether they returned or threw: the defines are exactly the five
    the constructor and [setDepthMode] wrote; the two packing defines are
    still [0]; the comparison is one of the texts of the switch and the
    tolerance is a text; the object is still marked for update, not tone
    mapped, with depth writing and depth testing off. *)
Theorem reachable_invariant (M : DepthModes) (this : DepthMaskMaterial) :
  reachable M this ->
  dom (defines this) = define_keys /\
  defines this !! "DEPTH_PACKING_0" = Some (Str "0") /\
  defines this !! "DEPTH_PACKING_1" = Some (Str "0") /\
  (exists t, defines this !! "depthTest(d0, d1)" = Some (Str t) /\
             In t comparison_texts) /\
  (exists e, defines this !! "DEPTH_EPSILON" = Some (Str e)) /\
  needsUpdate this = true /\ toneMapped this = false /\
  depthWrite this = false /\ depthTest this = false /\
  name this = "DepthMaskMaterial".
Proof.
  intros R. destruct (reachable_consistent M this R) as (e & s & E).
  rewrite E, layout_dom, layout_lookup_test, layout_lookup_epsilon.
  split; [done |].
  split; [unfold layout; by rewrite !lookup_insert_ne by done |].
  split; [unfold layout; by rewrite !lookup_insert_ne by done |].
  split; [eexists; split; [done | apply depthTest_text_listed] |].
  split; [by exists e |].
  by apply (reachable_fields M).
Qed.

Lemma reachable_invariant_witness :
  reachable three (after (setEpsilon Undefined) (new three)) /\
  dom (defines (after (setEpsilon Undefined) (new three))) = define_keys.
Proof.
  split.
  - apply (reachable_call three (SetEpsilon Undefined) (new three)).
    apply reachable_new.
  - destruct (reachable_invariant three
                (after (setEpsilon Undefined) (new three))) as (Dm & _).
    + apply (reachable_call three (SetEpsilon Undefined) (new three)).
      apply reachable_new.
    + exact Dm.
Defined.

(** ** Numbers through [toFixed] and back *)

Module FixedFacts.
Import Decimal JsNumber NumberFacts RoundingFacts.
Local Open Scope Z_scope.
Local Open Scope string_scope.

(** The text of [n] without a fraction is a run of digits. *)
Lemma fixed_text_0 n :
  0 <= n ->
  exists c a, fixed_text n 0 = String c a /\ is_digit c = true /\
    all_digits a = true /\ value_from 0 (String c a) = n.
Proof.
  intros N. unfold fixed_text.
  assert (exists m, (if (n =? 0)%Z then "0" else digits n) = m /\
            all_digits m = true /\ (0 < String.length m)%nat /\
            value_from 0 m = n) as (m & -> & A & L & V).
  { eexists. split; [reflexivity |].
    destruct (Z.eqb_spec n 0) as [-> | NZ].
    - repeat split. cbn [String.length]. lia.
    - destruct (digits_spec n N) as (A & L & V). rewrite V. by repeat split. }
  destruct m as [| c a]; [cbn [String.length] in L; lia |].
  apply all_digits_cons in A as [Ac A]. by exists c, a.
Qed.

Lemma parse_decimal_digits a :
  all_digits a = true -> (0 < String.length a)%nat ->
  parse_decimal a = Some (value_from 0 a, 0, "").
Proof.
  intros A L. unfold parse_decimal.
  rewrite <- (append_empty a) at 1.
  rewrite (scan_digits a "" 0 0) by done. cbv iota beta.
  destruct (0 + String.length a)%nat eqn:E; [lia | done].
Qed.

Lemma parse_radix_all_digits c a :
  is_digit c = true -> all_digits a = true -> parse_radix (String c a) = None.
Proof.
  intros C A. destruct a as [| c' a]; [done |].
  apply all_digits_cons in A as [C' A].
  destruct (digit_is_plain c' C') as (_ & _ & _ & _ & _ & X1 & X2 & O1 & O2 & B1 & B2).
  cbn [parse_radix]. rewrite X1, X2, O1, O2, B1, B2.
  cbn [orb]. change (0 <? 0)%Z with false. by rewrite andb_false_r.
Qed.

Lemma StringToNumber_fixed_0 (neg : bool) n :
  0 <= n ->
  StringToNumber ((if neg then "-" else "") +:+ fixed_text n 0)
  = nearest neg n 1.
Proof.
  intros N. destruct (fixed_text_0 n N) as (c & a & -> & C & A & V).
  assert (all_digits (String c a) = true) as CA by (apply all_digits_cons; by split).
  pose proof (parse_decimal_digits (String c a) CA) as P.
  rewrite V in P. specialize (P ltac:(cbn [String.length]; lia)).
  pose proof (parse_radix_all_digits c a C A) as R.
  destruct (digit_is_plain c C) as (W & Pl & Mi & Dt & In & _).
  assert (of_decimal neg n 0 = nearest neg n 1) as O
    by (unfold of_decimal; cbn [Z.leb Z.compare]; by rewrite Z.pow_0_r, Z.mul_1_r).
  rewrite <- O. unfold StringToNumber. destruct neg.
  - change ("-" +:+ String c a) with (String "-" (String c a)).
    cbn [skip_ws all_ws]. change (is_ws "-") with false. cbn [andb]. cbv iota.
    change (parse_radix (String "-" (String c a))) with (@None (Z * string)).
    cbv iota. cbn [split_sign]. change (Ascii.eqb "-" "+") with false.
    change (Ascii.eqb "-" "-") with true. cbv iota beta.
    cbn [strip_prefix]. rewrite In. by rewrite P.
  - change ("" +:+ String c a) with (String c a).
    cbn [skip_ws all_ws]. rewrite W. cbn [andb skip_ws all_ws]. rewrite W.
    cbn [andb]. cbv iota. rewrite R. cbn [split_sign]. rewrite Pl, Mi.
    cbv iota beta. cbn [strip_prefix]. rewrite In. by rewrite P.
Qed.

(** What [Number(x.toFixed(fd))] is, for [x] in the range of the fixed
    notation: the Number nearest to [x] rounded to [fd] digits. *)
Lemma Number_toFixed x fd :
  in_fixed_range x = true ->
  StringToNumber (toFixed x fd)
  = nearest (negative x) (fixed_point x fd) (10 ^ Z.of_nat fd).
Proof.
  intros R. rewrite (toFixed_in_range x fd R).
  pose proof (fixed_point_nonneg x fd) as N.
  destruct fd as [| fd'].
  - by rewrite StringToNumber_fixed_0.
  - rewrite StringToNumber_fixed by (try done; lia).
    unfold of_decimal.
    destruct (Z.leb_spec 0 (- Z.of_nat (S fd'))); [lia |].
    by rewrite Z.opp_involutive.
Qed.

Lemma SFeqb_finite s m e : SFeqb (S754_finite s m e) (S754_finite s m e) = true.
Proof.
  unfold SFeqb, SFcompare. rewrite Z.compare_refl.
  assert (Pos.compare_cont Eq m m = Eq) as -> by apply Pos.compare_refl.
  by destruct s.
Qed.

Lemma pow10_bounds fd : (fd <= 16)%nat -> 0 < 10 ^ Z.of_nat fd < 2 ^ 54.
Proof.
  intros F. split; [apply Z.pow_pos_nonneg; lia |].
  assert (10 ^ Z.of_nat fd <= 10 ^ 16) by (apply Z.pow_le_mono_r; lia).
  assert (10 ^ 16 < 2 ^ 54) by reflexivity. lia.
Qed.

(** A binary64 value with at most [fd <= 16] digits after the point comes
    back from [Number(x.toFixed(fd))] as itself. *)
Lemma Number_toFixed_exact x fd :
  is_double x = true -> in_fixed_range x = true -> has_digits x fd = true ->
  (fd <= 16)%nat ->
  SFeqb (StringToNumber (toFixed x fd)) x = true.
Proof.
  intros V R H F. rewrite (Number_toFixed x fd R).
  destruct x as [s | s | | s m e]; try discriminate.
  - unfold fixed_point, round_half_up. cbn [magnitude negative].
    rewrite Z.mul_0_l. change ((2 * 0 + 1) / (2 * 1)) with 0. reflexivity.
  - pose proof (pow10_bounds fd F) as [T0 T1]. set (T := 10 ^ Z.of_nat fd) in *.
    pose proof (magnitude_pos (S754_finite s m e)) as Pq.
    unfold has_digits in H. unfold fixed_point, round_half_up. fold T in H |- *.
    destruct (magnitude (S754_finite s m e)) as [p q] eqn:Mg.
    destruct Pq as [P0 Q0]. apply Z.eqb_eq in H.
    apply Z.mod_divide in H; [| lia]. destruct H as [N HN].
    assert ((2 * (p * T) + q) / (2 * q) = N) as ->.
    { rewrite HN. symmetry. apply Z.div_unique with (r := q); nia. }
    unfold is_double, valid_binary, bounded, canonical_mantissa in V.
    apply andb_true_iff in V as [C B].
    apply Z.eqb_eq in C. apply Z.leb_le in B.
    change (Zpos (digits2_pos m)) with (Zdigits2 (Zpos m)) in C.
    pose proof (Zdigits2_bounds m) as [Lm Um].
    set (d := Zdigits2 (Zpos m)) in *.
    assert (0 < d) by (unfold d; cbn [Zdigits2]; lia).
    unfold fexp, emin in C. change (3 - emax - prec) with (-1074) in C.
    change prec with 53 in C.
    assert (0 < p) as Pp.
    { cbn [magnitude] in Mg.
      destruct (Z.leb_spec 0 e); injection Mg as <- <-; [| lia].
      assert (0 < 2 ^ e) by (apply Z.pow_pos_nonneg; lia). nia. }
    assert (0 < N) as Np by nia.
    assert (d = 53) as D.
    { destruct (Z.eq_dec d 53) as [| Nd]; [done |]. exfalso.
      assert (e = -1074 /\ d < 53) as [-> Ld] by lia.
      cbn [magnitude] in Mg. change (0 <=? -1074)%Z with false in Mg.
      injection Mg as <- <-.
      assert (Zpos m < 2 ^ 53)
        by (assert (2 ^ d <= 2 ^ 53) by (apply Z.pow_le_mono_r; lia); lia).
      assert (Zpos m * T < 2 ^ 53 * 2 ^ 54) by nia.
      assert (2 ^ 53 * 2 ^ 54 < 2 ^ (- -1074)) by reflexivity.
      nia. }
    cbn [negative].
    rewrite (nearest_exact s m e N T); [apply SFeqb_finite | done | lia | done | lia |].
    rewrite Mg. lia.
Qed.

End FixedFacts.

(** ** The strategy, through [toFixed(0)] and [Number] *)

Lemma defines_after_setMaxDepthStrategy x this :
  defines (after (setMaxDepthStrategy (Num x)) this) !! "DEPTH_TEST_STRATEGY"
  = Some (Str (JsNumber.toFixed x 0)).
Proof.
  rewrite after_setMaxDepthStrategy_number.
  cbn [with_needsUpdate with_defines defines]. apply lookup_insert_eq.
Qed.

(** X7: [setMaxDepthStrategy] rounds to a whole number.  For a finite [v]
    with [|v| < 10^21] the define holds the digits of the integer [n]
    nearest to [|v|] (the larger one on a tie: [n - 1/2 <= |v| < n + 1/2]),
    behind a minus sign when [v < 0], and [getMaxDepthStrategy()] answers
    the Number nearest to that integer, not [v]. *)
Theorem setMaxDepthStrategy_rounds (this : DepthMaskMaterial) (x : JsNumber.number) :
  JsNumber.in_fixed_range x = true ->
  let n := JsNumber.fixed_point x 0 in
  let this' := after (setMaxDepthStrategy (Num x)) this in
  (inject_Z n - (1 # 2) <= Qabs (JsNumber.to_Q x))%Q /\
  (Qabs (JsNumber.to_Q x) < inject_Z n + (1 # 2))%Q /\
  defines this' !! "DEPTH_TEST_STRATEGY"
  = Some (Str ((if JsNumber.negative x then "-" else "")
               +:+ JsNumber.fixed_text n 0)) /\
  getMaxDepthStrategy this' = Num (JsNumber.nearest (JsNumber.negative x) n 1).
Proof.
  intros R n this'.
  assert (inject_Z n - (1 # 2) <= Qabs (JsNumber.to_Q x)
          /\ Qabs (JsNumber.to_Q x) < inject_Z n + (1 # 2))%Q as [B1 B2].
  { unfold n, JsNumber.fixed_point, JsNumber.round_half_up, JsNumber.to_Q.
    pose proof (NumberFacts.magnitude_pos x) as P.
    destruct (JsNumber.magnitude x) as [p q]. destruct P as [P Q].
    change (10 ^ Z.of_nat 0)%Z with 1%Z. rewrite Z.mul_1_r.
    pose proof (Z.div_mod (2 * p + q) (2 * q) ltac:(lia)) as Dm.
    pose proof (Z.mod_pos_bound (2 * p + q) (2 * q) ltac:(lia)) as Bd.
    set (k := ((2 * p + q) / (2 * q))%Z) in *.
    assert (Z.abs (if JsNumber.negative x then - p else p) = p) as A
      by (destruct (JsNumber.negative x); lia).
    unfold Qle, Qlt, Qabs, Qminus, Qplus, Qopp, inject_Z.
    cbn [Qnum Qden]. rewrite A, Z2Pos.id by done. split; nia. }
  split; [exact B1 |]. split; [exact B2 |].
  split.
  - unfold this'. rewrite defines_after_setMaxDepthStrategy.
    by rewrite (NumberFacts.toFixed_in_range x 0 R).
  - unfold this'. rewrite getMaxDepthStrategy_after_set.
    by rewrite (FixedFacts.Number_toFixed x 0 R).
Qed.

Lemma setMaxDepthStrategy_rounds_witness :
  JsNumber.in_fixed_range (JsNumber.of_decimal false 15 (-1)) = true /\
  getMaxDepthStrategy
    (after (setMaxDepthStrategy (Num (JsNumber.of_decimal false 15 (-1))))
           (new three))
  = Num (JsNumber.nearest false
           (JsNumber.fixed_point (JsNumber.of_decimal false 15 (-1)) 0) 1).
Proof.
  split; [vm_compute; reflexivity |].
  destruct (setMaxDepthStrategy_rounds (new three)
              (JsNumber.of_decimal false 15 (-1))) as (_ & _ & _ & G).
  - vm_compute. reflexivity.
  - exact G.
Defined.

(** X8: whole numbers come back.  For a binary64 value [v] that is an
    integer with [|v| < 10^21], [getMaxDepthStrategy()] after
    [setMaxDepthStrategy(v)] is [=== v]; so it is for the three codes of
    [DepthTestStrategy], whichever is passed. *)
Theorem setMaxDepthStrategy_round_trip
    (this : DepthMaskMaterial) (x : JsNumber.number) (k : string) (v : value) :
  (JsNumber.is_double x = true -> JsNumber.in_fixed_range x = true ->
   JsNumber.has_digits x 0 = true ->
   strict_eq (getMaxDepthStrategy (after (setMaxDepthStrategy (Num x)) this))
             (Num x) = true) /\
  (DepthTestStrategy !! k = Some v ->
   getMaxDepthStrategy (after (setMaxDepthStrategy v) this) = v).
Proof.
  split.
  - intros V R H. rewrite getMaxDepthStrategy_after_set. cbn [strict_eq].
    apply FixedFacts.Number_toFixed_exact; try done. lia.
  - unfold DepthTestStrategy. intros L.
    apply lookup_insert_Some in L as [[_ <-] | [_ L]];
      [rewrite getMaxDepthStrategy_after_set; vm_compute; reflexivity |].
    apply lookup_insert_Some in L as [[_ <-] | [_ L]];
      [rewrite getMaxDepthStrategy_after_set; vm_compute; reflexivity |].
    apply lookup_singleton_Some in L as [_ <-].
    rewrite getMaxDepthStrategy_after_set. vm_compute. reflexivity.
Qed.

Lemma setMaxDepthStrategy_round_trip_witness :
  JsNumber.is_double (JsNumber.of_Z 7) = true /\
  JsNumber.in_fixed_range (JsNumber.of_Z 7) = true /\
  JsNumber.has_digits (JsNumber.of_Z 7) 0 = true /\
  DepthTestStrategy !! "DEFAULT" = Some (Num (JsNumber.of_Z 0)) /\
  strict_eq (getMaxDepthStrategy
               (after (setMaxDepthStrategy (Num (JsNumber.of_Z 7))) (new three)))
            (Num (JsNumber.of_Z 7)) = true /\
  getMaxDepthStrategy
    (after (setMaxDepthStrategy (Num (JsNumber.of_Z 0))) (new three))
  = Num (JsNumber.of_Z 0).
Proof.
  destruct (setMaxDepthStrategy_round_trip (new three) (JsNumber.of_Z 7)
              "DEFAULT" (Num (JsNumber.of_Z 0))) as [I E].
  split; [vm_compute; reflexivity |].
  split; [vm_compute; reflexivity |].
  split; [vm_compute; reflexivity |].
  split; [vm_compute; reflexivity |].
  split.
  - apply I; vm_compute; reflexivity.
  - apply E. vm_compute. reflexivity.
Defined.

(** ** The tolerance, through [toFixed(16)] and [Number] *)

Lemma SFeqb_zero_false r :
  (forall s, r <> S754_zero s) -> SFeqb r (S754_zero false) = false.
Proof. intros N. destruct r as [s | [] | | [] m e]; try done. by destruct (N s). Qed.

(** X9: which tolerances survive.  For a finite [0 <= v < 10^21],
    [getEpsilon()] after [setEpsilon(v)] is [=== 0] exactly when
    [v < 5e-17]: every tolerance of at least [5 * 10^-17] reads back as a
    Number that is not zero. *)
Theorem setEpsilon_zero_iff (this : DepthMaskMaterial) (x : JsNumber.number) :
  JsNumber.negative x = false ->
  JsNumber.in_fixed_range x = true ->
  strict_eq (getEpsilon (after (setEpsilon (Num x)) this))
            (Num (S754_zero false)) = true
  <-> (JsNumber.to_Q x < 5 # 100000000000000000)%Q.
Proof.
  intros Neg R. rewrite getEpsilon_after_set. cbn [strict_eq].
  rewrite (FixedFacts.Number_toFixed x 16 R), Neg.
  pose proof (NumberFacts.fixed_point_zero x 16) as Z.
  pose proof (NumberFacts.fixed_point_nonneg x 16) as NN.
  pose proof (NumberFacts.magnitude_pos x) as P.
  unfold JsNumber.to_Q. rewrite Neg.
  destruct (JsNumber.magnitude x) as [p q]. destruct P as [P Q].
  unfold Qlt. cbn [Qnum Qden]. rewrite Z2Pos.id by done.
  change (Z.of_nat 16) with 16%Z in *.
  set (n := JsNumber.fixed_point x 16) in *.
  split.
  - intros E. destruct (Z.eq_dec n 0) as [E0 | NZ]; [apply Z in E0; lia |].
    rewrite SFeqb_zero_false in E; [done |].
    intros s. apply RoundingFacts.nearest_nonzero; [lia | by vm_compute].
  - intros L. assert (n = 0%Z) as -> by (apply Z; lia). reflexivity.
Qed.

Lemma setEpsilon_zero_iff_witness :
  JsNumber.negative default_epsilon = false /\
  JsNumber.in_fixed_range default_epsilon = true /\
  (strict_eq (getEpsilon (after (setEpsilon (Num default_epsilon)) (new three)))
             (Num (S754_zero false)) = true
   <-> (JsNumber.to_Q default_epsilon < 5 # 100000000000000000)%Q).
Proof.
  split; [reflexivity |]. split; [vm_compute; reflexivity |].
  refine (setEpsilon_zero_iff (new three) default_epsilon _ _);
    [reflexivity | vm_compute; reflexivity].
Defined.

(** X10: a tolerance with at most sixteen digits after the point comes
    back.  For a binary64 value [v] with [|v| < 10^21] such that
    [v * 10^16] is an integer, [getEpsilon()] after [setEpsilon(v)] is
    [=== v]. *)
Theorem setEpsilon_round_trip (this : DepthMaskMaterial) (x : JsNumber.number) :
  JsNumber.is_double x = true ->
  JsNumber.in_fixed_range x = true ->
  JsNumber.has_digits x 16 = true ->
  strict_eq (getEpsilon (after (setEpsilon (Num x)) this)) (Num x) = true.
Proof.
  intros V R H. rewrite getEpsilon_after_set. cbn [strict_eq].
  apply FixedFacts.Number_toFixed_exact; try done.
Qed.

Lemma setEpsilon_round_trip_witness :
  JsNumber.is_double (JsNumber.of_decimal false 125 (-3)) = true /\
  JsNumber.in_fixed_range (JsNumber.of_decimal false 125 (-3)) = true /\
  JsNumber.has_digits (JsNumber.of_decimal false 125 (-3)) 16 = true /\
  strict_eq (getEpsilon (after (setEpsilon (Num (JsNumber.of_decimal false 125 (-3))))
                               (new three)))
            (Num (JsNumber.of_decimal false 125 (-3))) = true.
Proof.
  split; [vm_compute; reflexivity |].
  split; [vm_compute; reflexivity |].
  split; [vm_compute; reflexivity |].
  refine (setEpsilon_round_trip (new three)
            (JsNumber.of_decimal false 125 (-3)) _ _ _);
    vm_compute; reflexivity.
Defined.

(** ** The tolerance the shader sees *)

Module LexFacts.
Import Decimal JsNumber NumberFacts.
Local Open Scope Z_scope.
Local Open Scope string_scope.

Lemma starts_number_digit c r : is_digit c = true -> starts_number (String c r) = true.
Proof. intros C. destruct r; cbn [starts_number]; by rewrite C. Qed.

Lemma lex_aux_empty fuel : lex_aux fuel "" = [].
Proof. by destruct fuel. Qed.

Lemma lex_aux_literal fuel c r m e :
  is_digit c = true -> parse_decimal (String c r) = Some (m, e, "") ->
  lex_aux (S fuel) (String c r) = [TNum m e].
Proof.
  intros C P. destruct (digit_is_plain c C) as (W & _).
  cbn [lex_aux]. rewrite W, (starts_number_digit c r C), P.
  by rewrite lex_aux_empty.
Qed.

Lemma lex_aux_minus fuel r :
  lex_aux (S fuel) (String "-" r) = TMinus :: lex_aux fuel r.
Proof. by destruct r. Qed.

(** The fixed notation of [toFixed] is one literal, behind a minus token
    for a negative value. *)
Lemma lex_fixed (neg : bool) n fd :
  0 <= n -> (0 < fd)%nat ->
  lex ((if neg then "-" else "") +:+ fixed_text n fd)
  = ((if neg then [TMinus] else []) ++ [TNum n (- Z.of_nat fd)])%list.
Proof.
  intros N F.
  destruct (fixed_text_split n fd N F) as (a & b & -> & A & B & La & Lb & V).
  pose proof (parse_decimal_fixed a b A B La) as P. rewrite V, Lb in P.
  destruct a as [| c a]; [cbn [String.length] in La; lia |].
  apply all_digits_cons in A as [Ac A].
  change (String c a +:+ "." +:+ b) with (String c (a +:+ "." +:+ b)) in *.
  set (t := a +:+ "." +:+ b) in *.
  unfold lex. destruct neg.
  - change ("-" +:+ String c t) with (String "-" (String c t)).
    cbn [String.length]. rewrite lex_aux_minus.
    by rewrite (lex_aux_literal _ c t n (- Z.of_nat fd)).
  - change ("" +:+ String c t) with (String c t). cbn [String.length].
    by rewrite (lex_aux_literal _ c t n (- Z.of_nat fd)).
Qed.

End LexFacts.

Lemma macros_after_setEpsilon x this :
  macros (after (setEpsilon (Num x)) this) "DEPTH_EPSILON"
  = Some (JsNumber.toFixed x 16).
Proof. unfold macros. by rewrite defines_after_setEpsilon. Qed.

(** X11: the tolerance handed to the shader is the stored decimal itself.
    For a finite [v] with [|v| < 10^21] the [DEPTH_EPSILON] macro reads, as
    the shader reads it, as the literal [n / 10^16], negated when [v < 0],
    where [n] is [|v| * 10^16] rounded half up: whatever the arithmetic of
    the device, and, unlike [getEpsilon()], with no rounding to binary64. *)
Theorem compiled_tolerance
    {D : Type} `{DepthNum D} (this : DepthMaskMaterial) (x : JsNumber.number) :
  JsNumber.in_fixed_range x = true ->
  let n := JsNumber.fixed_point x 16 in
  epsilon_of (after (setEpsilon (Num x)) this)
  = Some (if JsNumber.negative x
          then dneg (dlit (n # 10000000000000000))
          else dlit (n # 10000000000000000)).
Proof.
  intros R n. unfold epsilon_of. rewrite macros_after_setEpsilon.
  cbn [mbind option_bind]. rewrite (NumberFacts.toFixed_in_range x 16 R).
  rewrite LexFacts.lex_fixed by (try apply NumberFacts.fixed_point_nonneg; lia).
  fold n. by destruct (JsNumber.negative x).
Qed.

Lemma compiled_tolerance_witness :
  JsNumber.in_fixed_range negative_epsilon = true /\
  epsilon_of (D := Q) (after (setEpsilon (Num negative_epsilon)) (new three))
  = Some (- (10000000000000 # 10000000000000000))%Q.
Proof.
  split; [vm_compute; reflexivity |].
  rewrite (compiled_tolerance (D := Q) (new three) negative_epsilon)
    by (vm_compute; reflexivity).
  vm_compute. reflexivity.
Defined.

(** ** A tolerance that is not finite *)

Section Undefined.
Context {D : Type} `{DepthNum D}.
Variable macros : string -> option string.
Variables x0 x1 : D.

Ltac read_macros :=
  unfold Glsl.depthTest;
  match goal with
  | |- context [lex ?body] =>
      let ts := eval vm_compute in (lex body) in
      change (lex body) with ts
  end;
  cbn [expand String.eqb Ascii.eqb Bool.eqb orb];
  repeat match goal with
    | E : macros _ = _ |- _ => rewrite E; clear E
    end;
  reflexivity.

(** With [NaN] or [Infinity] for a tolerance, the two comparisons that
    use it mention a name the shader does not know. *)
Lemma read_not_a_literal body text :
  macros "abs" = None ->
  macros "DEPTH_EPSILON" = Some text ->
  In text ["NaN"; "Infinity"; "-Infinity"] ->
  In body ["abs(d1 - d0) <= DEPTH_EPSILON"; "abs(d1 - d0) > DEPTH_EPSILON"] ->
  Glsl.depthTest macros body x0 x1 = None /\ tolerance (D := D) (lex text) = None.
Proof.
  intros A E T B. split.
  - cbn [In] in T, B.
    destruct T as [<- | [<- | [<- | []]]]; destruct B as [<- | [<- | []]];
      read_macros.
  - cbn [In] in T. by destruct T as [<- | [<- | [<- | []]]].
Qed.

End Undefined.

(** X12: [setEpsilon] takes NaN and the infinities as they come: the
    define holds the text [NaN], [Infinity] or [-Infinity],
    [getEpsilon()] answers the value passed, and under EqualDepth and
    NotEqualDepth the comparison handed to the shader mentions that text,
    which is no literal of the shading language, so there is no keep
    decision at all. *)
Theorem setEpsilon_not_finite
    (M : DepthModes) {D : Type} `{DepthNum D} (c : DepthComparisonMode)
    (this : DepthMaskMaterial) (x : JsNumber.number) (d0 d1 : D) :
  enumeration M ->
  reachable M this ->
  JsNumber.finite x = false ->
  uses_epsilon c = true ->
  let this' :=
    after (setEpsilon (Num x)) (after (setDepthMode M (mode_value M c)) this) in
  answer (setEpsilon (Num x)) (after (setDepthMode M (mode_value M c)) this)
  = Return tt /\
  defines this' !! "DEPTH_EPSILON" = Some (Str (JsNumber.to_string x)) /\
  In (JsNumber.to_string x) ["NaN"; "Infinity"; "-Infinity"] /\
  getEpsilon this' = Num x /\
  epsilon_of (D := D) this' = None /\
  keep this' d0 d1 = None.
Proof.
  intros modes R F U this'.
  assert (JsNumber.toFixed x 16 = JsNumber.to_string x) as T
    by (by destruct x as [| | |]).
  assert (In (JsNumber.to_string x) ["NaN"; "Infinity"; "-Infinity"]) as I.
  { destruct x as [| [] | |]; try discriminate; cbn [In JsNumber.to_string]; tauto. }
  assert (consistent M this') as C.
  { apply reachable_consistent.
    by apply reachable_setEpsilon, reachable_setDepthMode. }
  assert (depthMode this' = mode_value M c) as Md
    by (unfold this'; by rewrite after_setEpsilon_number).
  assert (macros this' "DEPTH_EPSILON" = Some (JsNumber.to_string x)) as E
    by (unfold this'; by rewrite macros_after_setEpsilon, T).
  assert (macros this' "abs" = None) as A by by apply (consistent_no_macro M).
  assert (In (depthTest_text M (depthMode this'))
            ["abs(d1 - d0) <= DEPTH_EPSILON"; "abs(d1 - d0) > DEPTH_EPSILON"]) as B.
  { rewrite Md, depthTest_text_enumerated by done.
    destruct c; try discriminate; cbn [In]; tauto. }
  destruct (read_not_a_literal (macros this') d0 d1 _ _ A E I B) as [K Tl].
  split; [reflexivity |].
  split; [unfold this'; by rewrite defines_after_setEpsilon, T |].
  split; [exact I |].
  split; [unfold this'; rewrite getEpsilon_after_set, T;
          by destruct x as [| [] | |] |].
  split; [unfold epsilon_of; rewrite E; exact Tl |].
  by rewrite (keep_consistent M this' d0 d1 C).
Qed.

Lemma setEpsilon_not_finite_witness :
  enumeration three /\
  reachable three (new three) /\
  JsNumber.finite JsNumber.NaN = false /\
  uses_epsilon Equal = true /\
  keep (after (setEpsilon (Num JsNumber.NaN))
              (after (setDepthMode three (mode_value three Equal)) (new three)))
       (1 # 2)%Q (1 # 2)%Q = None.
Proof.
  split; [intros c c'; destruct c, c'; vm_compute; reflexivity |].
  split; [apply reachable_new |].
  split; [reflexivity |]. split; [reflexivity |].
  destruct (setEpsilon_not_finite three Equal (new three) JsNumber.NaN
              (1 # 2)%Q (1 # 2)%Q) as (_ & _ & _ & _ & _ & K).
  - intros c c'. destruct c, c'; vm_compute; reflexivity.
  - apply reachable_new.
  - reflexivity.
  - reflexivity.
  - exact K.
Defined.

(** ** Tolerances below zero and below the last digit, in exact arithmetic *)

Lemma keep_after_setEpsilon
    (M : DepthModes) {D : Type} `{DepthNum D} (c : DepthComparisonMode)
    (this : DepthMaskMaterial) (x : JsNumber.number) (d0 d1 : D) :
  enumeration M -> reachable M this -> JsNumber.in_fixed_range x = true ->
  keep (after (setEpsilon (Num x)) (after (setDepthMode M (mode_value M c)) this))
       d0 d1
  = Some (truth_table c
            (if JsNumber.negative x
             then dneg (dlit (JsNumber.fixed_point x 16 # 10000000000000000))
             else dlit (JsNumber.fixed_point x 16 # 10000000000000000))
            d0 d1).
Proof.
  intros modes R Rng.
  apply (keep_enumerated M modes c).
  - apply reachable_consistent. by apply reachable_setEpsilon, reachable_setDepthMode.
  - by rewrite after_setEpsilon_number.
  - unfold epsilon_of. rewrite macros_after_setEpsilon.
    cbn [mbind option_bind]. rewrite (NumberFacts.toFixed_in_range x 16 Rng).
    rewrite LexFacts.lex_fixed by (try apply NumberFacts.fixed_point_nonneg; lia).
    by destruct (JsNumber.negative x).
Qed.

Lemma Qabs_le_negative (z : Q) (n : Z) (d : positive) :
  (0 < n)%Z -> Qle_bool (Qabs z) (- (n # d)) = false.
Proof.
  intros N. destruct (Qle_bool (Qabs z) (- (n # d))) eqn:E; [| done].
  apply Qle_bool_iff in E. pose proof (Qabs_nonneg z) as P.
  assert (0 <= - (n # d))%Q as Q0 by (eapply Qle_trans; eauto).
  unfold Qle in Q0. cbn [Qnum Qden Qopp] in Q0. lia.
Qed.

Lemma Qabs_le_zero (a b : Q) (d : positive) :
  Qle_bool (Qabs (b - a)) (0 # d) = Qeq_bool a b.
Proof.
  apply eq_true_iff_eq. rewrite Qle_bool_iff, Qeq_bool_iff.
  destruct a as [na da], b as [nb db].
  unfold Qle, Qeq, Qabs, Qminus, Qplus, Qopp. cbn [Qnum Qden].
  rewrite Z.mul_0_l.
  pose proof (Z.abs_nonneg (nb * Zpos da + - na * Zpos db)) as A.
  split; intros E.
  - assert (Z.abs (nb * Zpos da + - na * Zpos db) = 0)%Z as A0 by nia.
    apply Z.abs_0_iff in A0. lia.
  - replace (nb * Zpos da + - na * Zpos db)%Z with 0%Z by lia. cbn. lia.
Qed.

(** X13: a negative tolerance empties EqualDepth.  In exact arithmetic,
    after [setEpsilon(v)] with a finite [-10^21 < v <= -5e-17], EqualDepth
    keeps no texel and NotEqualDepth keeps every texel, whatever the two
    depths. *)
Theorem negative_tolerance
    (M : DepthModes) (this : DepthMaskMaterial) (x : JsNumber.number) (d0 d1 : Q) :
  enumeration M ->
  reachable M this ->
  JsNumber.negative x = true ->
  JsNumber.in_fixed_range x = true ->
  (JsNumber.to_Q x <= - (5 # 100000000000000000))%Q ->
  keep (after (setEpsilon (Num x)) (after (setDepthMode M (EqualDepth M)) this))
       d0 d1 = Some false /\
  keep (after (setEpsilon (Num x)) (after (setDepthMode M (NotEqualDepth M)) this))
       d0 d1 = Some true.
Proof.
  intros modes R Neg Rng Le.
  assert (0 < JsNumber.fixed_point x 16)%Z as Pos.
  { pose proof (NumberFacts.fixed_point_zero x 16) as Z.
    pose proof (NumberFacts.fixed_point_nonneg x 16) as NN.
    pose proof (NumberFacts.magnitude_pos x) as P.
    unfold JsNumber.to_Q in Le. rewrite Neg in Le.
    destruct (JsNumber.magnitude x) as [p q]. destruct P as [P Q].
    unfold Qle in Le. cbn [Qnum Qden Qopp] in Le. rewrite Z2Pos.id in Le by done.
    change (Z.of_nat 16) with 16%Z in Z.
    destruct (Z.eq_dec (JsNumber.fixed_point x 16) 0) as [E0 | NZ]; [| lia].
    apply Z in E0. lia. }
  pose proof (keep_after_setEpsilon M Equal this x d0 d1 modes R Rng) as KE.
  pose proof (keep_after_setEpsilon M NotEqual this x d0 d1 modes R Rng) as KN.
  rewrite Neg in KE, KN. cbn [mode_value] in KE, KN. rewrite KE, KN.
  cbn [truth_table compare dlit dneg dsub dabs dleb dltb Q_DepthNum].
  by rewrite Qabs_le_negative.
Qed.

Lemma negative_tolerance_witness :
  enumeration three /\
  reachable three (new three) /\
  JsNumber.negative negative_epsilon = true /\
  JsNumber.in_fixed_range negative_epsilon = true /\
  (JsNumber.to_Q negative_epsilon <= - (5 # 100000000000000000))%Q /\
  keep (after (setEpsilon (Num negative_epsilon))
              (after (setDepthMode three (EqualDepth three)) (new three)))
       (1 # 2)%Q (1 # 2)%Q = Some false.
Proof.
  split; [intros c c'; destruct c, c'; vm_compute; reflexivity |].
  split; [apply reachable_new |].
  split; [reflexivity |].
  split; [vm_compute; reflexivity |].
  split; [vm_compute; discriminate |].
  destruct (negative_tolerance three (new three) negative_epsilon
              (1 # 2)%Q (1 # 2)%Q) as (K & _).
  - intros c c'. destruct c, c'; vm_compute; reflexivity.
  - apply reachable_new.
  - reflexivity.
  - vm_compute. reflexivity.
  - vm_compute. discriminate.
  - exact K.
Defined.

(** X14: a tolerance below the last stored digit makes EqualDepth exact.
    In exact arithmetic, after [setEpsilon(v)] with a finite
    [0 <= v < 5e-17], EqualDepth keeps a texel exactly when the two depths
    are equal and NotEqualDepth exactly when they differ. *)
Theorem lost_tolerance
    (M : DepthModes) (this : DepthMaskMaterial) (x : JsNumber.number) (d0 d1 : Q) :
  enumeration M ->
  reachable M this ->
  JsNumber.negative x = false ->
  JsNumber.in_fixed_range x = true ->
  (JsNumber.to_Q x < 5 # 100000000000000000)%Q ->
  keep (after (setEpsilon (Num x)) (after (setDepthMode M (EqualDepth M)) this))
       d0 d1 = Some (Qeq_bool d0 d1) /\
  keep (after (setEpsilon (Num x)) (after (setDepthMode M (NotEqualDepth M)) this))
       d0 d1 = Some (negb (Qeq_bool d0 d1)).
Proof.
  intros modes R Neg Rng Lt.
  assert (JsNumber.fixed_point x 16 = 0)%Z as Zero.
  { pose proof (NumberFacts.fixed_point_zero x 16) as Z.
    pose proof (NumberFacts.magnitude_pos x) as P.
    unfold JsNumber.to_Q in Lt. rewrite Neg in Lt.
    destruct (JsNumber.magnitude x) as [p q]. destruct P as [P Q].
    unfold Qlt in Lt. cbn [Qnum Qden] in Lt. rewrite Z2Pos.id in Lt by done.
    change (Z.of_nat 16) with 16%Z in Z. apply Z. lia. }
  pose proof (keep_after_setEpsilon M Equal this x d0 d1 modes R Rng) as KE.
  pose proof (keep_after_setEpsilon M NotEqual this x d0 d1 modes R Rng) as KN.
  rewrite Neg, Zero in KE, KN. cbn [mode_value] in KE, KN. rewrite KE, KN.
  cbn [truth_table compare dlit dneg dsub dabs dleb dltb Q_DepthNum].
  by rewrite Qabs_le_zero.
Qed.

Lemma lost_tolerance_witness :
  enumeration three /\
  reachable three (new three) /\
  JsNumber.negative tiny_epsilon = false /\
  JsNumber.in_fixed_range tiny_epsilon = true /\
  (JsNumber.to_Q tiny_epsilon < 5 # 100000000000000000)%Q /\
  keep (after (setEpsilon (Num tiny_epsilon))
              (after (setDepthMode three (EqualDepth three)) (new three)))
       (1 # 2)%Q (2 # 4)%Q = Some (Qeq_bool (1 # 2) (2 # 4)).
Proof.
  split; [intros c c'; destruct c, c'; vm_compute; reflexivity |].
  split; [apply reachable_new |].
  split; [reflexivity |].
  split; [vm_compute; reflexivity |].
  split; [vm_compute; reflexivity |].
  destruct (lost_tolerance three (new three) tiny_epsilon
              (1 # 2)%Q (2 # 4)%Q) as (K & _).
  - intros c c'. destruct c, c'; vm_compute; reflexivity.
  - apply reachable_new.
  - reflexivity.
  - vm_compute. reflexivity.
  - vm_compute. reflexivity.
  - exact K.
Defined.

(** ** Modes that mirror and negate each other *)

(** X15: the eight modes pair up.  Where the device's [a < b] is the
    negation of [b <= a], the mode opposite to [c] (Never and Always,
    Equal and NotEqual, Less and GreaterEqual, Greater and LessEqual)
    keeps exactly the texels [c] discards, for the same object otherwise. *)
Theorem opposite_modes
    (M : DepthModes) {D : Type} `{DepthNum D}
    (c : DepthComparisonMode) (this : DepthMaskMaterial) (epsilon d0 d1 : D) :
  enumeration M ->
  reachable M this ->
  epsilon_of this = Some epsilon ->
  (forall a b : D, dltb a b = negb (dleb b a)) ->
  keep (after (setDepthMode M (mode_value M (opposite c))) this) d0 d1
  = negb <$> keep (after (setDepthMode M (mode_value M c)) this) d0 d1.
Proof.
  intros modes R E Law.
  assert (forall c', keep (after (setDepthMode M (mode_value M c')) this) d0 d1
                     = Some (truth_table c' epsilon d0 d1)) as K.
  { intros c'. apply (keep_enumerated M modes c'); [| done |].
    - apply reachable_consistent. by apply reachable_setDepthMode.
    - by rewrite epsilon_of_setDepthMode. }
  rewrite !K. cbn [fmap option_fmap option_map]. f_equal.
  destruct c; cbn [opposite truth_table compare]; rewrite ?Law, ?negb_involutive;
    reflexivity.
Qed.

Lemma opposite_modes_witness :
  enumeration three /\
  reachable three (new three) /\
  epsilon_of (new three) = Some (1 # 100000)%Q /\
  (forall a b : Q, dltb a b = negb (dleb b a)) /\
  keep (after (setDepthMode three (mode_value three (opposite Equal))) (new three))
       (1 # 2)%Q (1 # 3)%Q
  = negb <$> keep (after (setDepthMode three (mode_value three Equal)) (new three))
                  (1 # 2)%Q (1 # 3)%Q.
Proof.
  split; [intros c c'; destruct c, c'; vm_compute; reflexivity |].
  split; [apply reachable_new |].
  split; [vm_compute; reflexivity |].
  split; [reflexivity |].
  refine (opposite_modes three Equal (new three) (1 # 100000)%Q
            (1 # 2)%Q (1 # 3)%Q _ _ _ _).
  - intros c c'. destruct c, c'; vm_compute; reflexivity.
  - apply reachable_new.
  - vm_compute. reflexivity.
  - reflexivity.
Defined.

(** X16: swapping the two depth buffers swaps Less with Greater and
    LessEqual with GreaterEqual: the mirrored mode decides on [(d1, d0)] as
    the mode does on [(d0, d1)].  Never and Always are their own mirror,
    and so are Equal and NotEqual where [abs(a - b)] is [abs(b - a)]. *)
Theorem mirrored_modes
    (M : DepthModes) {D : Type} `{DepthNum D}
    (c : DepthComparisonMode) (this : DepthMaskMaterial) (epsilon d0 d1 : D) :
  enumeration M ->
  reachable M this ->
  epsilon_of this = Some epsilon ->
  (forall a b : D, dabs (dsub a b) = dabs (dsub b a)) ->
  keep (after (setDepthMode M (mode_value M (mirrored c))) this) d1 d0
  = keep (after (setDepthMode M (mode_value M c)) this) d0 d1.
Proof.
  intros modes R E Law.
  assert (forall c' a b,
            keep (after (setDepthMode M (mode_value M c')) this) a b
            = Some (truth_table c' epsilon a b)) as K.
  { intros c' a b. apply (keep_enumerated M modes c'); [| done |].
    - apply reachable_consistent. by apply reachable_setDepthMode.
    - by rewrite epsilon_of_setDepthMode. }
  rewrite !K. f_equal.
  destruct c; cbn [mirrored truth_table compare]; rewrite ?(Law d0 d1);
    reflexivity.
Qed.

Lemma Q_abs_sub_symmetric (a b : Q) : Qabs (a - b) = Qabs (b - a).
Proof.
  destruct a as [na da], b as [nb db].
  unfold Qabs, Qminus, Qplus, Qopp. cbn [Qnum Qden].
  rewrite (Pos.mul_comm da db). f_equal. lia.
Qed.

Lemma mirrored_modes_witness :
  enumeration three /\
  reachable three (new three) /\
  epsilon_of (new three) = Some (1 # 100000)%Q /\
  (forall a b : Q, dabs (dsub a b) = dabs (dsub b a)) /\
  keep (after (setDepthMode three (mode_value three (mirrored Less))) (new three))
       (1 # 3)%Q (1 # 2)%Q
  = keep (after (setDepthMode three (mode_value three Less)) (new three))
         (1 # 2)%Q (1 # 3)%Q.
Proof.
  split; [intros c c'; destruct c, c'; vm_compute; reflexivity |].
  split; [apply reachable_new |].
  split; [vm_compute; reflexivity |].
  split; [exact Q_abs_sub_symmetric |].
  refine (mirrored_modes three Less (new three) (1 # 100000)%Q
            (1 # 2)%Q (1 # 3)%Q _ _ _ _).
  - intros c c'. destruct c, c'; vm_compute; reflexivity.
  - apply reachable_new.
  - vm_compute. reflexivity.
  - exact Q_abs_sub_symmetric.
Defined.

(** ** The strategy and the comparison *)

Lemma expand_agree t1 t2 ts :
  (forall x, In (TId x) ts -> t1 x = t2 x) -> expand t1 ts = expand t2 ts.
Proof.
  induction ts as [| t ts IH]; intros A; [done |].
  assert (expand t1 ts = expand t2 ts) as E
    by (apply IH; intros x I; apply A; by right).
  destruct t; cbn [expand]; rewrite ?E; try done.
  rewrite (A x) by by left. done.
Qed.

Lemma depthTest_agree {D : Type} `{DepthNum D} m1 m2 body (d0 d1 : D) :
  (forall x, In (TId x) (lex body) -> m1 x = m2 x) ->
  Glsl.depthTest m1 body d0 d1 = Glsl.depthTest m2 body d0 d1.
Proof.
  intros A. unfold Glsl.depthTest.
  rewrite (expand_agree _
             (fun x => if String.eqb x "d0" || String.eqb x "d1" then None
                       else lex <$> m2 x)); [done |].
  intros x I. by rewrite (A x I).
Qed.

Lemma comparison_texts_no_strategy body :
  In body comparison_texts -> ~ In (TId "DEPTH_TEST_STRATEGY") (lex body).
Proof.
  unfold comparison_texts. cbn [In]. intros I.
  repeat (destruct I as [<- | I];
          [vm_compute; intros J; repeat (destruct J as [J | J]; [discriminate J |]);
           exact J |]).
  destruct I.
Qed.

(** X17: the strategy never enters the comparison.  On any object a
    program can hold, [setMaxDepthStrategy(v)] and [keepFar = v] leave the
    keep decision of [depthTest(d0, d1)] as it was for every pair of
    depths, whatever [v] is: what the strategy does to texels at maximum
    depth is not in the macro this class writes. *)
Theorem strategy_not_compared
    (M : DepthModes) {D : Type} `{DepthNum D}
    (v : value) (this : DepthMaskMaterial) (d0 d1 : D) :
  reachable M this ->
  keep (after (setMaxDepthStrategy v) this) d0 d1 = keep this d0 d1 /\
  keep (after (set_keepFar v) this) d0 d1 = keep this d0 d1.
Proof.
  intros R.
  assert (forall w, keep (after (setMaxDepthStrategy w) this) d0 d1
                    = keep this d0 d1) as K.
  { intros w. setter_cases w; [| done].
    set (this' := with_needsUpdate true
                    (with_defines
                       (<["DEPTH_TEST_STRATEGY" := Str (JsNumber.toFixed x 0)]>
                          (defines this)) this)).
    assert (forall y, y <> "DEPTH_TEST_STRATEGY" -> macros this' y = macros this y)
      as Same.
    { intros y Ny. unfold macros, this'.
      cbn [with_needsUpdate with_defines defines].
      by rewrite lookup_insert_ne. }
    assert (macros this "depthTest(d0, d1)"
            = Some (depthTest_text M (getDepthMode this))) as T
      by (unfold macros; by rewrite (reachable_test M this R)).
    unfold keep. rewrite Same, T by done. cbn [mbind option_bind].
    apply depthTest_agree. intros y I. apply Same.
    intros ->. revert I. apply comparison_texts_no_strategy.
    apply depthTest_text_listed. }
  split; [apply K |].
  assert (after (set_keepFar v) this
          = after (setMaxDepthStrategy
                     (if ToBoolean v then KEEP_MAX_DEPTH else DISCARD_MAX_DEPTH))
                  this) as ->
    by (unfold after; by rewrite set_keepFar_runs).
  apply K.
Qed.

Lemma strategy_not_compared_witness :
  reachable three (new three) /\
  keep (after (set_keepFar (Bool false)) (new three)) (1 # 2)%Q (1 # 3)%Q
  = keep (new three) (1 # 2)%Q (1 # 3)%Q.
Proof.
  split; [apply reachable_new |].
  destruct (strategy_not_compared three (Bool false) (new three)
              (1 # 2)%Q (1 # 3)%Q (reachable_new three)) as (_ & K).
  exact K.
Defined.

(** ** A larger tolerance keeps more *)

Lemma fixed_point_monotone x y fd :
  JsNumber.negative x = false -> JsNumber.negative y = false ->
  (JsNumber.to_Q x <= JsNumber.to_Q y)%Q ->
  (JsNumber.fixed_point x fd <= JsNumber.fixed_point y fd)%Z.
Proof.
  intros Nx Ny L. unfold JsNumber.to_Q in L. rewrite Nx, Ny in L.
  unfold JsNumber.fixed_point, JsNumber.round_half_up.
  pose proof (NumberFacts.magnitude_pos x) as Px.
  pose proof (NumberFacts.magnitude_pos y) as Py.
  destruct (JsNumber.magnitude x) as [p1 q1], (JsNumber.magnitude y) as [p2 q2].
  destruct Px as [P1 Q1], Py as [P2 Q2].
  unfold Qle in L. cbn [Qnum Qden] in L. rewrite !Z2Pos.id in L by done.
  set (T := (10 ^ Z.of_nat fd)%Z).
  assert (0 < T)%Z as T0 by (apply Z.pow_pos_nonneg; lia).
  pose proof (Z.div_mod (2 * (p1 * T) + q1) (2 * q1) ltac:(lia)) as D1.
  pose proof (Z.mod_pos_bound (2 * (p1 * T) + q1) (2 * q1) ltac:(lia)) as B1.
  pose proof (Z.div_mod (2 * (p2 * T) + q2) (2 * q2) ltac:(lia)) as D2.
  pose proof (Z.mod_pos_bound (2 * (p2 * T) + q2) (2 * q2) ltac:(lia)) as B2.
  set (n1 := ((2 * (p1 * T) + q1) / (2 * q1))%Z) in *.
  set (n2 := ((2 * (p2 * T) + q2) / (2 * q2))%Z) in *.
  destruct (Z.le_gt_cases n1 n2) as [| G]; [done |]. exfalso.
  assert ((n2 + 1) * (2 * q1) <= 2 * (p1 * T) + q1)%Z as A1 by nia.
  assert (2 * (p2 * T) + q2 < (n2 + 1) * (2 * q2))%Z as A2 by nia.
  assert ((n2 + 1) * (2 * q1) * q2 <= (2 * (p1 * T) + q1) * q2)%Z as A3
    by (apply Z.mul_le_mono_nonneg_r; lia).
  assert ((2 * (p2 * T) + q2) * q1 < (n2 + 1) * (2 * q2) * q1)%Z as A4
    by (apply Z.mul_lt_mono_pos_r; lia).
  assert (p1 * q2 * T <= p2 * q1 * T)%Z as A5
    by (apply Z.mul_le_mono_nonneg_r; lia).
  lia.
Qed.

(** X18: under EqualDepth a larger tolerance never keeps less.  In exact
    arithmetic, for finite tolerances [0 <= v <= w < 10^21], a texel that
    EqualDepth keeps after [setEpsilon(v)] it also keeps after
    [setEpsilon(w)], and a texel that NotEqualDepth keeps after
    [setEpsilon(w)] it also keeps after [setEpsilon(v)]. *)
Theorem tolerance_monotone
    (M : DepthModes) (this : DepthMaskMaterial) (x y : JsNumber.number)
    (d0 d1 : Q) :
  enumeration M ->
  reachable M this ->
  JsNumber.negative x = false -> JsNumber.in_fixed_range x = true ->
  JsNumber.negative y = false -> JsNumber.in_fixed_range y = true ->
  (JsNumber.to_Q x <= JsNumber.to_Q y)%Q ->
  (keep (after (setEpsilon (Num x)) (after (setDepthMode M (EqualDepth M)) this))
        d0 d1 = Some true ->
   keep (after (setEpsilon (Num y)) (after (setDepthMode M (EqualDepth M)) this))
        d0 d1 = Some true) /\
  (keep (after (setEpsilon (Num y)) (after (setDepthMode M (NotEqualDepth M)) this))
        d0 d1 = Some true ->
   keep (after (setEpsilon (Num x)) (after (setDepthMode M (NotEqualDepth M)) this))
        d0 d1 = Some true).
Proof.
  intros modes R Nx Rx Ny Ry L.
  pose proof (fixed_point_monotone x y 16 Nx Ny L) as Mo.
  pose proof (keep_after_setEpsilon M Equal this x d0 d1 modes R Rx) as Ex.
  pose proof (keep_after_setEpsilon M Equal this y d0 d1 modes R Ry) as Ey.
  pose proof (keep_after_setEpsilon M NotEqual this x d0 d1 modes R Rx) as Nex.
  pose proof (keep_after_setEpsilon M NotEqual this y d0 d1 modes R Ry) as Ney.
  rewrite Nx in Ex, Nex. rewrite Ny in Ey, Ney.
  cbn [mode_value] in Ex, Ey, Nex, Ney. rewrite Ex, Ey, Nex, Ney.
  cbn [truth_table compare dlit dneg dsub dabs dleb dltb Q_DepthNum].
  set (a := Qabs (d1 - d0)).
  set (ex := (JsNumber.fixed_point x 16 # 10000000000000000)%Q).
  set (ey := (JsNumber.fixed_point y 16 # 10000000000000000)%Q).
  assert (ex <= ey)%Q as Le by (unfold ex, ey, Qle; cbn [Qnum Qden]; lia).
  assert (Qle_bool a ex = true -> Qle_bool a ey = true) as Imp.
  { rewrite !Qle_bool_iff. intros A. by apply Qle_trans with ex. }
  split.
  - intros K. injection K as K. f_equal. by apply Imp.
  - intros K. injection K as K. f_equal.
    destruct (Qle_bool a ex) eqn:E; [| done]. by rewrite (Imp eq_refl) in K.
Qed.

Lemma tolerance_monotone_witness :
  enumeration three /\
  reachable three (new three) /\
  JsNumber.negative tiny_epsilon = false /\
  JsNumber.in_fixed_range tiny_epsilon = true /\
  JsNumber.negative default_epsilon = false /\
  JsNumber.in_fixed_range default_epsilon = true /\
  (JsNumber.to_Q tiny_epsilon <= JsNumber.to_Q default_epsilon)%Q /\
  keep (after (setEpsilon (Num tiny_epsilon))
              (after (setDepthMode three (EqualDepth three)) (new three)))
       (1 # 2)%Q (1 # 2)%Q = Some true /\
  keep (after (setEpsilon (Num default_epsilon))
              (after (setDepthMode three (EqualDepth three)) (new three)))
       (1 # 2)%Q (1 # 2)%Q = Some true.
Proof.
  assert (enumeration three) as E3
    by (intros c c'; destruct c, c'; vm_compute; reflexivity).
  assert (JsNumber.to_Q tiny_epsilon <= JsNumber.to_Q default_epsilon)%Q as Le
    by (vm_compute; discriminate).
  assert (keep (after (setEpsilon (Num tiny_epsilon))
                 (after (setDepthMode three (EqualDepth three)) (new three)))
            (1 # 2)%Q (1 # 2)%Q = Some true) as K
    by (vm_compute; reflexivity).
  split; [exact E3 |]. split; [apply reachable_new |].
  split; [reflexivity |]. split; [vm_compute; reflexivity |].
  split; [reflexivity |]. split; [vm_compute; reflexivity |].
  split; [exact Le |]. split; [exact K |].
  destruct (tolerance_monotone three (new three) tiny_epsilon default_epsilon
              (1 # 2)%Q (1 # 2)%Q E3 (reachable_new three)) as (I & _).
  - reflexivity.
  - vm_compute. reflexivity.
  - reflexivity.
  - vm_compute. reflexivity.
  - exact Le.
  - exact (I K).
Defined.

(** * The build script *)

Module EsbuildFacts.
Import Esbuild NumberFacts.
Local Open Scope string_scope.

Lemma has_comma_app a b : has_comma (a +:+ b) = has_comma a || has_comma b.
Proof.
  induction a as [| c a IH]; [done |].
  rewrite append_cons. cbn [has_comma]. by rewrite IH, orb_assoc.
Qed.

Lemma replace_unfold s :
  replace s
  = match match_here s with
    | Some g => " and " +:+ g
    | None =>
        match s with
        | String c s' => String c (replace s')
        | EmptyString => EmptyString
        end
    end.
Proof. by destruct s. Qed.

Lemma match_here_plain c s : Ascii.eqb c "," = false -> match_here (String c s) = None.
Proof. intros E. unfold match_here. destruct s; [done |]. by rewrite E. Qed.

(** The search passes over a name without commas. *)
Lemma replace_app a s :
  has_comma a = false -> replace (a +:+ s) = a +:+ replace s.
Proof.
  induction a as [| c a IH]; intros N; [done |].
  cbn [has_comma] in N. apply orb_false_iff in N as [C N].
  rewrite !append_cons, (replace_unfold (String c (a +:+ s))).
  by rewrite match_here_plain, IH.
Qed.

Lemma replace_plain a : has_comma a = false -> replace a = a.
Proof.
  intros N. rewrite <- (append_empty a) at 1.
  rewrite replace_app by done. by rewrite append_empty.
Qed.

(** At a separator the search stops if no comma follows, and goes on
    otherwise. *)
Lemma replace_separator s :
  replace (", " +:+ s)
  = if has_comma s then ", " +:+ replace s else " and " +:+ s.
Proof.
  change (", " +:+ s) with (String "," (String " " s)).
  rewrite (replace_unfold (String "," (String " " s))).
  cbn [match_here]. change (Ascii.eqb "," ",") with true.
  change (Ascii.eqb " " " ") with true. cbn [andb].
  destruct (has_comma s); cbn [negb]; [| done].
  rewrite (replace_unfold (String " " s)).
  by rewrite match_here_plain.
Qed.

Lemma join_cons sep a b (l : list string) :
  join sep (a :: b :: l) = a +:+ sep +:+ join sep (b :: l).
Proof. reflexivity. Qed.

Lemma has_comma_join_two a b (l : list string) :
  has_comma (join ", " (a :: b :: l)) = true.
Proof.
  rewrite join_cons, !has_comma_app. cbn [has_comma].
  change (Ascii.eqb "," ",") with true. cbn [orb]. by rewrite orb_true_r.
Qed.

(** With two names or more the last separator is the one replaced. *)
Lemma replace_join (l : list string) : forall a last,
  Forall (fun d => has_comma d = false) (a :: app l [last]) ->
  replace (join ", " (a :: app l [last]))
  = join ", " (a :: l) +:+ " and " +:+ last.
Proof.
  induction l as [| b l IH]; intros a last F.
  - change (a :: app [] [last]) with [a; last] in *.
    inversion_clear F as [| ? ? Fa F']. inversion_clear F' as [| ? ? Fl _].
    cbn [join]. by rewrite replace_app, replace_separator, Fl.
  - change (a :: app (b :: l) [last]) with (a :: b :: app l [last]) in *.
    inversion_clear F as [| ? ? Fa F'].
    rewrite join_cons, replace_app, replace_separator by done.
    assert (has_comma (join ", " (b :: app l [last])) = true) as ->.
    { destruct l; [apply (has_comma_join_two b last []) |
                   apply has_comma_join_two]. }
    rewrite (IH b last F'), (join_cons _ a b).
    by rewrite !append_assoc.
Qed.

End EsbuildFacts.

(** X19: the watch message names the directories as a sentence does.
    For directory names without commas, one name is printed alone, two as
    [a and b], and more as [a, b, ... and z]: every separator is [", "]
    but the last, which is [" and "]. *)
Theorem watched_directories (init : list string) (d last : string) :
  Forall (fun s => Esbuild.has_comma s = false) (d :: app init [last]) ->
  Esbuild.watched [] = "" /\
  Esbuild.watched [d] = d /\
  Esbuild.watched (d :: app init [last])
  = Esbuild.join ", " (d :: init) +:+ " and " +:+ last.
Proof.
  intros F. unfold Esbuild.watched.
  assert (Esbuild.has_comma d = false) as Fd by (by inversion_clear F).
  split; [reflexivity |].
  split; [by apply EsbuildFacts.replace_plain |].
  by apply EsbuildFacts.replace_join.
Qed.

Lemma watched_directories_witness :
  Forall (fun s => Esbuild.has_comma s = false) ["src"; "demo"; "manual"] /\
  Esbuild.watched ["src"; "demo"; "manual"] = "src, demo and manual".
Proof.
  split; [repeat constructor |].
  destruct (watched_directories ["demo"] "src" "manual") as (_ & _ & E);
    [repeat constructor | exact E].
Defined.
